(** * infra-buddy: context resolution, execution plans and resource allocation

    A shallow embedding of
      - [infra_buddy/utility/helper_functions.py]
      - [infra_buddy/context/deploy_ctx.py]
      - [infra_buddy/context/service_definition.py]
    with the properties of the design document proved (or refuted) on it.

    Python values are a small sum type, a [dict] is a [gmap], an exception is
    the [Raise] branch of [result], and the collaborators that live outside
    these three files (template lookup, CloudFormation, the load-balancer
    client, the clock) are taken as parameters.  The modules are read as
    Python 3, which the repository requires ([build.py]); text is ASCII. *)

From Stdlib Require Import ZArith String Ascii List Lia.
From stdpp Require Import base option gmap strings list pretty.

#[local] Set Warnings "-register-all,-clear-no-such-hyp".
#[local] Open Scope string_scope.
#[local] Open Scope Z_scope.

(** ** Python values, exceptions, results *)

Module Py.

(** The values a context entry, a request or a return value can be. *)
Inductive PyVal : Type :=
| PNone
| PInt (n : Z)
| PStr (s : string).

#[global] Instance PyVal_eq_dec : EqDecision PyVal.
Proof. solve_decision. Defined.

(** [NotModelled] marks the few inputs whose Python behaviour this
    development does not follow (the [repr] of a container, the key order
    of a JSON object). *)
Inductive PyError : Type :=
| TypeError
| ValueError
| OverflowError
| KeyError (key : string)
| AttributeError (attr : string)
| ValidationError
| Exception (msg : string)
| NotModelled.

Inductive result (A : Type) : Type :=
| Ok (a : A)
| Raise (e : PyError).
#[global] Arguments Ok {A} a.
#[global] Arguments Raise {A} e.

#[global] Instance result_ret : MRet result := fun _ a => Ok a.
#[global] Instance result_bind : MBind result := fun _ _ f m =>
  match m with Ok a => f a | Raise e => Raise e end.
#[global] Instance result_fmap : FMap result := fun _ _ f m =>
  match m with Ok a => Ok (f a) | Raise e => Raise e end.

(** [str(v)], which is also what an f-string or a [str.format] field
    without conversion renders. *)
Definition str (v : PyVal) : string :=
  match v with
  | PNone => "None"
  | PInt n => pretty n
  | PStr s => s
  end.

(** [int(v)].  On ASCII text a literal is white space, an optional sign,
    decimal digits with single underscores between them, and white space;
    [int(None)] is a [TypeError]. *)
Definition is_space (c : ascii) : bool :=
  let n := nat_of_ascii c in
  ((Nat.leb 9 n && Nat.leb n 13) || (Nat.leb 28 n && Nat.leb n 32))%bool.

Fixpoint lstrip (s : string) : string :=
  match s with
  | String c s' => if is_space c then lstrip s' else s
  | "" => ""
  end.

Fixpoint all_space (s : string) : bool :=
  match s with
  | String c s' => is_space c && all_space s'
  | "" => true
  end.

(** What follows a digit, with [acc] the number read so far. *)
Fixpoint digits (acc : Z) (s : string) : option Z :=
  match s with
  | "" => Some acc
  | String c s' =>
      match Ascii.is_nat c with
      | Some d => digits (10 * acc + Z.of_nat d) s'
      | None =>
          if Ascii.eqb c "_" then
            match s' with
            | String c' s'' =>
                match Ascii.is_nat c' with
                | Some d => digits (10 * acc + Z.of_nat d) s''
                | None => None
                end
            | "" => None
            end
          else if all_space s then Some acc else None
      end
  end.

Definition number (s : string) : option Z :=
  match s with
  | String c s' =>
      match Ascii.is_nat c with
      | Some d => digits (Z.of_nat d) s'
      | None => None
      end
  | "" => None
  end.

Definition int_of_str (s : string) : option Z :=
  match lstrip s with
  | String "-" s' => Z.opp <$> number s'
  | String "+" s' => number s'
  | s' => number s'
  end.

Definition int (v : PyVal) : result Z :=
  match v with
  | PNone => Raise TypeError
  | PInt n => Ok n
  | PStr s => match int_of_str s with Some n => Ok n | None => Raise ValueError end
  end.

(** Modelled from the spec: [print_utility.error(msg, raise_exception=True)]
    of [infra_buddy/utility/print_utility.py], a fatal error that carries
    the message. *)
Definition print_utility_error {A} (msg : string) : result A :=
  Raise (Exception msg).

(** [d.get(key, default)] *)
Definition get (d : gmap string PyVal) (key : string) (default : PyVal) : PyVal :=
  match d !! key with Some v => v | None => default end.

(** [s.lower()] on ASCII text: the other characters are left as they
    are, which is not what Python makes of every cased letter. *)
Definition lower_ascii (c : ascii) : ascii :=
  let n := nat_of_ascii c in
  if (Nat.leb 65 n && Nat.leb n 90)%bool then ascii_of_nat (n + 32) else c.

Fixpoint lower (s : string) : string :=
  match s with
  | "" => ""
  | String c s' => String (lower_ascii c) (lower s')
  end.

(** [c in s] for a one-character [c] *)
Fixpoint contains (c : ascii) (s : string) : bool :=
  match s with
  | "" => false
  | String d s' => Ascii.eqb d c || contains c s'
  end.

(** [s.find(c)] for a one-character [c]: the first index, or [-1]. *)
Fixpoint find (c : ascii) (s : string) : Z :=
  match s with
  | "" => -1
  | String d s' =>
      if Ascii.eqb d c then 0
      else let i := find c s' in if i <? 0 then -1 else i + 1
  end.

(** [s[:i]], where a negative [i] counts from the end. *)
Definition slice_to (s : string) (i : Z) : string :=
  let stop := if i <? 0 then Z.max 0 (Z.of_nat (String.length s) + i) else i in
  substring 0 (Z.to_nat stop) s.

End Py.
Import Py.

(** ** [infra_buddy/context/service_definition.py]: the definition file *)

(** What [json.load] yields (numbers are the integral ones). *)
Inductive Json : Type :=
| JNull
| JBool (b : bool)
| JNum (n : Z)
| JStr (s : string)
| JArr (items : list Json)
| JObj (members : gmap string Json).

Definition _SERVICE_DEFINITION_FILE := "service.json".
Definition _MODIFICATIONS := "service-modifications".
Definition _DEPLOYMENT_PARAMETERS := "deployment-parameters".
Definition _CI_DEPLOYMENT_PARAMETERS := "ci-deployment-parameters".
Definition _PROD_DEPLOYMENT_PARAMETERS := "prod-deployment-parameters".
Definition _DEV_DEPLOYMENT_PARAMETERS := "dev-deployment-parameters".
Definition _DOCKER_REGISTRY := "registry-url".
Definition _SERVICE_TYPE := "service-type".
Definition _ROLE := "role".
Definition _APPLICATION := "application".

Module Schema.

Definition is_string (j : Json) : bool :=
  match j with JStr _ => true | _ => false end.

Definition is_object (j : Json) : bool :=
  match j with JObj _ => true | _ => false end.

(** [{"type": ["string", "null"], 'maxLength': 1000}] *)
Definition is_registry (j : Json) : bool :=
  match j with
  | JStr s => Nat.leb (String.length s) 1000
  | JNull => true
  | _ => false
  end.

(** A property's schema constrains the member only when it is there. *)
Definition property (check : Json -> bool) (doc : gmap string Json) (key : string) : bool :=
  match doc !! key with Some v => check v | None => true end.

Definition required (doc : gmap string Json) (key : string) : bool :=
  bool_decide (is_Some (doc !! key)).

(** [validate(service_definition, self.schema)] passes. *)
Definition valid (service_definition : Json) : bool :=
  match service_definition with
  | JObj doc =>
      property is_string doc _APPLICATION
      && property is_string doc _ROLE
      && property is_string doc _SERVICE_TYPE
      && property is_registry doc _DOCKER_REGISTRY
      && property is_object doc _DEPLOYMENT_PARAMETERS
      && property is_object doc _CI_DEPLOYMENT_PARAMETERS
      && property is_object doc _PROD_DEPLOYMENT_PARAMETERS
      && property is_object doc _DEV_DEPLOYMENT_PARAMETERS
      && forallb (required doc)
           [_APPLICATION; _ROLE; _DEPLOYMENT_PARAMETERS; _SERVICE_TYPE]
  | _ => false
  end.

End Schema.

Record ServiceDefinition : Type := {
  artifact_directory : string;
  application : Json;
  role : Json;
  service_type : Json;
  docker_registry : Json;
  deployment_parameters : gmap string Json;
  service_modifications : Json;
}.

(** [d[key]] on a parsed object *)
Definition member (d : gmap string Json) (key : string) : result Json :=
  match d !! key with Some v => Ok v | None => Raise (KeyError key) end.

(** [d.update(other)]: the entries of [other] win.  [other] is a JSON
    object; [update] also takes a sequence of pairs, which no schema of this
    file asks for. *)
Definition update (d : gmap string Json) (other : Json) : result (gmap string Json) :=
  match other with
  | JObj o => Ok (o ∪ d)
  | JNull | JBool _ | JNum _ => Raise TypeError
  | JStr "" | JArr [] => Ok d
  | JStr _ => Raise ValueError
  | JArr _ => Raise NotModelled
  end.

(** [ServiceDefinition(artifact_directory, environment)].  [service_json] is
    what [json.load] reads from [service.json] in the artifact directory,
    [None] when the file is not there. *)
Definition __init__ (artifact_directory environment : string)
    (service_json : option Json) : result ServiceDefinition :=
  match service_json with
  | None =>
      Raise (Exception ("Service definition (" +:+ _SERVICE_DEFINITION_FILE
               +:+ ") does not exist in artifact directory - " +:+ artifact_directory))
  | Some service_definition =>
      if negb (Schema.valid service_definition) then Raise ValidationError
      else
        match service_definition with
        | JObj doc =>
            application ← member doc _APPLICATION;
            role ← member doc _ROLE;
            service_type ← member doc _SERVICE_TYPE;
            let docker_registry := default (JStr "") (doc !! _DOCKER_REGISTRY) in
            (* the schema requires this member and makes it an object;
               without it the attribute would stay unset *)
            deployment_parameters ←
              match doc !! _DEPLOYMENT_PARAMETERS with
              | Some (JObj params) => Ok params
              | _ => Raise (AttributeError "deployment_parameters")
              end;
            let env_deployment_parameters := environment +:+ "-deployment-parameters" in
            deployment_parameters ←
              match doc !! env_deployment_parameters with
              | Some specific => update deployment_parameters specific
              | None => Ok deployment_parameters
              end;
            Ok {| artifact_directory := artifact_directory;
                  application := application;
                  role := role;
                  service_type := service_type;
                  docker_registry := docker_registry;
                  deployment_parameters := deployment_parameters;
                  service_modifications := default (JArr []) (doc !! _MODIFICATIONS) |}
        | _ => Raise TypeError
        end
  end.

(** ** The deploy context *)

(** [DeployContext] is a [dict] subclass: its entries ([vars]); beside them
    the instance attributes of [__dict__] that the code reads as
    [deploy_ctx.stack_name] and the like ([attrs]); and the
    [service_definition] attribute, which only
    [_initialize_artifact_directory] sets. *)
Record DeployContext : Type := {
  vars : gmap string PyVal;
  attrs : gmap string PyVal;
  service_definition : option ServiceDefinition;
}.

(** [self.name] for a mirrored attribute *)
Definition getattr (self : DeployContext) (name : string) : result PyVal :=
  match attrs self !! name with
  | Some v => Ok v
  | None => Raise (AttributeError name)
  end.

(** ** [infra_buddy/utility/helper_functions.py] *)

(** The least [int] that [_value/1024.0] cannot turn into a float: from
    here on the division is an [OverflowError]. *)
Definition float_limit : Z := 2 ^ 1024 - 2 ^ 970.
#[global] Arguments float_limit : simpl never.
#[global] Opaque float_limit.

(** The requests are Python [int]s (a [float] request is not followed).
    Below [float_limit], [_value/1024.0] is the quotient of the nearest float
    by a power of two: up to [2 ^ 53] that is exact and [math.ceil] of it is
    the exact ceiling; above, both the float's ceiling and the exact one
    are beyond the cap of 30720, which is then the result. *)
Definition _get_valid_fargate_memory (_value : Z) : result PyVal :=
  if _value <=? 512 then Ok (PStr "512")
  else if _value <? 1024 then Ok (PStr "1024")
  else if float_limit <=? _value then Raise OverflowError
  else
    let memory := - ((- _value) / 1024) * 1024 in
    if memory >? 30720 then Ok (PInt 30720) else Ok (PInt memory).

Definition _get_valid_fargate_cpu (_value : Z) : Z :=
  if _value <=? 256 then 256
  else if _value <=? 512 then 512
  else if _value <=? 1024 then 1024
  else if _value <=? 2048 then 2048
  else if _value <=? 4096 then 4096
  else 4096.

(** [range(a, b)] *)
Definition range (a b : Z) : list Z := seqZ a (b - a).

Definition _valid_fargate_resources : list (Z * list string) :=
  [ (256, ["512"; "1024"; "2048"]);
    (512, (fun i => pretty (i * 1024)) <$> range 1 5);
    (1024, (fun i => pretty (i * 1024)) <$> range 2 9);
    (2048, (fun i => pretty (i * 1024)) <$> range 4 17);
    (4096, (fun i => pretty (i * 1024)) <$> range 8 31) ].

(** [_valid_fargate_resources[cpu]] *)
Fixpoint getitem {V} (d : list (Z * V)) (key : Z) : option V :=
  match d with
  | [] => None
  | (k, v) :: d' => if Z.eqb k key then Some v else getitem d' key
  end.

Definition _valid_fargate_memories : list string :=
  concat (snd <$> _valid_fargate_resources).

(** [s in strings], for a list or a set of strings *)
Definition str_in (s : string) (l : list string) : bool :=
  existsb (String.eqb s) l.

(** [v in _valid_fargate_resources]: a key of the table is an [int], so no
    string and no [None] is one. *)
Definition in_resources (v : PyVal) : bool :=
  match v with
  | PInt n => bool_decide (is_Some (getitem _valid_fargate_resources n))
  | _ => false
  end.

(** [v in _valid_fargate_memories]: the members are strings. *)
Definition in_memories (v : PyVal) : bool :=
  match v with
  | PStr s => str_in s _valid_fargate_memories
  | _ => false
  end.

Definition invalid_configuration (cpu memory : PyVal) : string :=
  "Attempting to use fargate with invalid configuration.  "
    +:+ str cpu +:+ " CPU " +:+ str memory +:+ " Memory".

(** The last three lines of [_validate_fargate_resource_allocation]. *)
Definition check_pair (cpu memory : PyVal) : result unit :=
  match cpu with
  | PInt c =>
      match getitem _valid_fargate_resources c with
      | Some memory_possibilities =>
          if match memory with
             | PStr m => str_in m memory_possibilities
             | _ => false
             end
          then Ok tt
          else print_utility_error (invalid_configuration cpu memory)
      | None => Raise (KeyError (str cpu))
      end
  | _ => Raise (KeyError (str cpu))
  end.

Definition _validate_fargate_resource_allocation
    (cpu memory : PyVal) (deploy_ctx : DeployContext) : result unit :=
  match cpu with
  | PNone =>
      let discovered_cpu := get (vars deploy_ctx) "TASK_CPU" PNone in
      if negb (in_resources discovered_cpu) then Ok tt
      else check_pair discovered_cpu memory
  | _ =>
      match memory with
      | PNone =>
          let discovered_memory := get (vars deploy_ctx) "TASK_SOFT_MEMORY" PNone in
          if negb (in_memories discovered_memory) then Ok tt
          else check_pair cpu discovered_memory
      | _ => check_pair cpu memory
      end
  end.

Definition _using_fargate (deploy_ctx : DeployContext) : bool :=
  bool_decide (get (vars deploy_ctx) "USE_FARGATE" (PStr "false") = PStr "true").

(** An [int] request; a string or [None] has no order with [256]. *)
Definition transform_fargate_cpu (deploy_ctx : DeployContext) (_value : PyVal)
    : result PyVal :=
  if _using_fargate deploy_ctx then
    match _value with
    | PInt v =>
        let cpu := PInt (_get_valid_fargate_cpu v) in
        _ ← _validate_fargate_resource_allocation cpu PNone deploy_ctx;
        Ok cpu
    | _ => Raise TypeError
    end
  else Ok PNone.

(** The message goes on to print the set of valid values, in an order
    Python does not fix; that tail is left out. *)
Definition invalid_memory (_value : string) : string :=
  "Attempting to use fargate with invalid memory.  " +:+ _value +:+ " Memory".

(** The [if isinstance(_value, str)] block, which binds [memory]. *)
Definition requested_memory (_value : PyVal) : result PyVal :=
  match _value with
  | PStr s =>
      if negb (str_in s _valid_fargate_memories)
      then print_utility_error (invalid_memory s)
      else Ok (PStr s)
  | PInt v => memory ← _get_valid_fargate_memory v; Ok (PStr (str memory))
  | PNone => Raise TypeError
  end.

Definition transform_fargate_memory (deploy_ctx : DeployContext) (_value : PyVal)
    : result PyVal :=
  if _using_fargate deploy_ctx then
    memory ← requested_memory _value;
    _ ← _validate_fargate_resource_allocation PNone memory deploy_ctx;
    Ok memory
  else Ok PNone.

(** *** Rule priorities *)

(** A rule of [describe_rules(...)['Rules']]; ['Priority'] is its only entry
    read here.  The service reports it as a string (["default"] or digits);
    the sort key of [_get_max_priority] also provides for an [int]. *)
Inductive Priority : Type :=
| PrioInt (n : Z)
| PrioStr (s : string).

Record Rule : Type := { rule_priority : Priority }.

(** The implicit rule of a listener. *)
Definition default_rule (r : Rule) : Prop := rule_priority r = PrioStr "default".

Definition priority_value (p : Priority) : PyVal :=
  match p with PrioInt n => PInt n | PrioStr s => PStr s end.

(** [p == "default"] *)
Definition is_default (p : Priority) : bool :=
  match p with PrioStr s => String.eqb s "default" | PrioInt _ => false end.

(** The order of the keys [(isinstance(p, str), p)]: [False] before [True],
    then integers by value and strings by code point. *)
Definition key_lt (p q : Priority) : bool :=
  match p, q with
  | PrioInt x, PrioInt y => x <? y
  | PrioInt _, PrioStr _ => true
  | PrioStr _, PrioInt _ => false
  | PrioStr s, PrioStr t => String.ltb s t
  end.

(** [sorted(rules, key=..., reverse=True)]: descending, and stable (rules
    with equal keys keep their order). *)
Fixpoint insert_desc (r : Rule) (l : list Rule) : list Rule :=
  match l with
  | [] => [r]
  | r' :: l' =>
      if key_lt (rule_priority r) (rule_priority r') then r' :: insert_desc r l'
      else r :: l
  end.

Definition sorted_reverse (rules : list Rule) : list Rule :=
  foldr insert_desc [] rules.

(** The [for] loop of [_get_max_priority]; falling off its end returns
    [None]. *)
Fixpoint first_non_default (rules : list Rule) : result PyVal :=
  match rules with
  | [] => Ok PNone
  | rule :: rules' =>
      let priority_ := rule_priority rule in
      if negb (is_default priority_) then PInt <$> int (priority_value priority_)
      else first_non_default rules'
  end.

Definition _get_max_priority (rules : list Rule) : result PyVal :=
  first_non_default (sorted_reverse rules).

(** The collaborators of [calculate_rule_priority]: [CloudFormationBuddy]
    (by the stack name set on it) and the [elbv2] client (by its region). *)
Record Cloud : Type := {
  does_stack_exist : string -> bool;
  get_existing_parameter_value : string -> string -> PyVal;
  get_export_value : PyVal -> string -> result PyVal;
  describe_rules : PyVal -> PyVal -> option (list Rule);
}.

(** [try: ... except Exception: warn ... finally: return val] *)
Definition _get_cluster_stack_export_value
    (cf : Cloud) (deploy_ctx : DeployContext) (param : string) : PyVal :=
  match getattr deploy_ctx "cluster_stack_name" with
  | Ok cluster_stack_name =>
      match get_export_value cf cluster_stack_name param with
      | Ok val => val
      | Raise _ => PNone
      end
  | Raise _ => PNone
  end.

(** Truth value of an object in an [if] *)
Definition truthy (v : PyVal) : bool :=
  match v with
  | PNone => false
  | PInt n => negb (n =? 0)
  | PStr s => negb (String.eqb s "")
  end.

Definition calculate_rule_priority
    (cf : Cloud) (deploy_ctx : DeployContext) (stack_name : string) : result PyVal :=
  if does_stack_exist cf stack_name then
    Ok (get_existing_parameter_value cf stack_name "RulePriority")
  else
    let listenerArn := _get_cluster_stack_export_value cf deploy_ctx "ListenerARN" in
    rules ← (if truthy listenerArn then
               region ← getattr deploy_ctx "region";
               Ok (describe_rules cf region listenerArn)
             else Ok None);
    current_max ←
      match rules with
      | None | Some [] => Ok 30
      | Some ((rule0 :: _) as rules) =>
          if (Nat.eqb (length rules) 1 && is_default (rule_priority rule0))%bool
          then Ok 30
          else max ← _get_max_priority rules; int max
      end;
    Ok (PStr (str (PInt (current_max + 1)))).

(** ** [infra_buddy/context/deploy_ctx.py] *)

Definition DOCKER_REGISTRY := "DOCKER_REGISTRY_URL".
Definition ROLE := "ROLE".
Definition APPLICATION := "APPLICATION".
Definition ENVIRONMENT := "ENVIRONMENT".
Definition REGION := "REGION".
Definition SKIP_ECS := "SKIP_ECS".

Definition built_in : list string :=
  [DOCKER_REGISTRY; ROLE; APPLICATION; ENVIRONMENT; REGION; SKIP_ECS].

(** The [OrderedDict], in insertion order. *)
Definition env_variables : list (string * string) :=
  [ ("VPCAPP", "{VPCAPP}");
    ("DEPLOY_DATE", "{DEPLOY_DATE}");
    ("STACK_NAME", "{ENVIRONMENT}-{APPLICATION}-{ROLE}");
    ("EnvName", "{STACK_NAME}");
    ("ECS_SERVICE_STACK_NAME", "{STACK_NAME}");
    ("VPC_STACK_NAME", "{ENVIRONMENT}-{VPCAPP}-vpc");
    ("CF_BUCKET_NAME", "{ENVIRONMENT}-{VPCAPP}-cloudformation-deploy-resources");
    ("CF_DEPLOY_RESOURCE_PATH", "{STACK_NAME}/{DEPLOY_DATE}");
    ("CF_BUCKET_URL", "https://s3-{REGION}.amazonaws.com/{CF_BUCKET_NAME}");
    ("CLUSTER_STACK_NAME", "{ENVIRONMENT}-{APPLICATION}-cluster");
    ("RESOURCE_STACK_NAME", "{ENVIRONMENT}-{APPLICATION}-{ROLE}-resources");
    ("ECS_SERVICE_RESOURCE_STACK_NAME", "{RESOURCE_STACK_NAME}");
    ("KEY_NAME", "{ENVIRONMENT}-{APPLICATION}");
    ("CHANGE_SET_NAME", "{STACK_NAME}-deploy-cloudformation-change-set") ].

(** [str.format] of a template with keyword arguments, for templates whose
    replacement fields are plain names, as are all templates of this module:
    text is copied, [{NAME}] is the [str] of [kwargs[NAME]].  [field] is the
    name being read, if any. *)
Fixpoint format_from (kwargs : gmap string PyVal) (field : option string)
    (template : string) : result string :=
  match template, field with
  | "", None => Ok ""
  | "", Some _ => Raise ValueError
  | String c rest, None =>
      if Ascii.eqb c "{" then format_from kwargs (Some "") rest
      else if Ascii.eqb c "}" then Raise ValueError
      else String c <$> format_from kwargs None rest
  | String c rest, Some name =>
      if Ascii.eqb c "}" then
        match kwargs !! name with
        | Some v => String.append (str v) <$> format_from kwargs None rest
        | None => Raise (KeyError name)
        end
      else format_from kwargs (Some (name +:+ String c "")) rest
  end.

Definition format (template : string) (kwargs : gmap string PyVal) : result string :=
  format_from kwargs None template.

(** [self[variable] = evaluated_template] together with
    [self.__dict__[variable.lower()] = evaluated_template] *)
Definition set_variable (variable : string) (value : PyVal) (self : DeployContext)
    : DeployContext :=
  {| vars := <[variable := value]> (vars self);
     attrs := <[lower variable := value]> (attrs self);
     service_definition := service_definition self |}.

Definition set_attr (name : string) (value : PyVal) (self : DeployContext)
    : DeployContext :=
  {| vars := vars self;
     attrs := <[name := value]> (attrs self);
     service_definition := service_definition self |}.

Definition setitem (key : string) (value : PyVal) (self : DeployContext)
    : DeployContext :=
  {| vars := <[key := value]> (vars self);
     attrs := attrs self;
     service_definition := service_definition self |}.

(** [env_variables.iteritems()].  The repository asks for Python 3.6 or
    later ([build.py]), and the two other modules use f-strings and
    assignment expressions.  An [OrderedDict] has no [iteritems] there:
    the attribute lookup raises, and the loop never starts. *)
Definition iteritems {A} (d : A) : result A :=
  Raise (AttributeError "iteritems").

(** The body of the loop over the items, were there any to run it on. *)
Fixpoint evaluate_templates (variables : list (string * string)) (self : DeployContext)
    : result DeployContext :=
  match variables with
  | [] => Ok self
  | (variable, template) :: variables' =>
      evaluated_template ← format template (vars self);
      evaluate_templates variables' (set_variable variable (PStr evaluated_template) self)
  end.

(** [now] is [datetime.datetime.now().strftime("%b_%d_%Y_Time_%H_%M")]. *)
Definition _initialize_environment_variables (now : string) (self : DeployContext)
    : result DeployContext :=
  match vars self !! APPLICATION with
  | None => Raise (KeyError APPLICATION)
  | Some (PStr application) =>
      let vpcapp :=
        if negb (contains "-" application) then application
        else slice_to application (find "-" application) in
      let self := setitem "VPCAPP" (PStr vpcapp) self in
      let self := setitem "DEPLOY_DATE" (PStr now) self in
      let self :=
        foldl (fun self property_name =>
                 set_attr (lower property_name)
                          (get (vars self) property_name PNone) self)
              self built_in in
      items ← iteritems env_variables;
      evaluate_templates items self
  | Some _ => Raise TypeError
  end.

(** [DeployContext(defaults, environment)]: [config] is the parsed defaults
    file (empty without one), [environ] is [os.environ]. *)
Definition DeployContext_init (config : gmap string PyVal) (environ : gmap string string)
    (environment : string) : DeployContext :=
  {| vars := (PStr <$> environ) ∪ config ∪ {[ ENVIRONMENT := PStr (lower environment) ]};
     attrs := ∅;
     service_definition := None |}.

Definition create_deploy_context (config : gmap string PyVal) (environ : gmap string string)
    (now : string) (application role environment : string) : result DeployContext :=
  let ret := DeployContext_init config environ environment in
  let ret := setitem APPLICATION (PStr application) ret in
  let ret := setitem ROLE (PStr role) ret in
  _initialize_environment_variables now ret.

(** [format(mod_name=mod_name, **self)]: a context entry named [mod_name]
    would give the keyword twice, a [TypeError]. *)
Definition generate_modification_stack_name (self : DeployContext) (mod_name : PyVal)
    : result string :=
  if bool_decide (is_Some (vars self !! "mod_name")) then Raise TypeError
  else format "{ENVIRONMENT}-{APPLICATION}-{ROLE}-{mod_name}"
              (<["mod_name" := mod_name]> (vars self)).

(** *** [_expandvars] *)

(** [\w] on ASCII characters: letters, digits and the underscore.  Python
    also takes the word characters beyond ASCII, which this development
    does not follow: a character beyond ASCII counts as none here, and
    the properties that depend on where a name ends keep to ASCII. *)
Definition is_word (c : ascii) : bool :=
  let n := nat_of_ascii c in
  ((Nat.leb 48 n && Nat.leb n 57) || (Nat.leb 65 n && Nat.leb n 90)
   || (Nat.leb 97 n && Nat.leb n 122) || Nat.eqb n 95)%bool.

(** Length of the longest prefix that [\w+] takes. *)
Fixpoint word_length (s : string) : nat :=
  match s with
  | String c s' => if is_word c then S (word_length s') else O
  | "" => O
  end.

(** Number of characters before the first closing brace, if there is one. *)
Fixpoint close_index (s : string) : option nat :=
  match s with
  | "" => None
  | String c s' => if Ascii.eqb c "}" then Some O else S <$> close_index s'
  end.

(** A match of [reVar] at a dollar sign followed by [tail]: either a run of
    word characters, or a braced name free of closing braces.  The result is
    group 1, group 2 (absent in the first alternative) and the number of
    characters matched after the dollar sign. *)
Definition match_var (tail : string) : option (string * option string * nat) :=
  match word_length tail with
  | S n => Some (substring 0 (S n) tail, None, S n)
  | O =>
      match tail with
      | String "{" inner =>
          match close_index inner with
          | Some k =>
              let name := substring 0 k inner in
              Some ("{" +:+ name +:+ "}", Some name, S (S k))
          | None => None
          end
      | _ => None
      end
  end.

(** [self.get(m.group(2) or m.group(1), m.group(0) if default is None else default)] *)
Definition replace_var (self : DeployContext) (default : PyVal)
    (group1 : string) (group2 : option string) : PyVal :=
  let key := match group2 with
             | Some (String _ _ as name) => name
             | _ => group1
             end in
  get (vars self) key
      (match default with PNone => PStr ("$" +:+ group1) | _ => default end).

(** What [re.sub] makes of the callback's value: a string is spliced in,
    [None] counts as empty, anything else fails the final join. *)
Definition spliced (v : PyVal) : result string :=
  match v with
  | PStr s => Ok s
  | PNone => Ok ""
  | PInt _ => Raise TypeError
  end.

(** [re.sub(reVar, replace_var, path)], scanning left to right.  [skip]
    counts the characters of the current match still to pass over;
    [escaped] tells whether the previous character is a backslash. *)
Fixpoint sub (self : DeployContext) (default : PyVal) (skip_escaped : bool)
    (skip : nat) (escaped : bool) (path : string) : result string :=
  match path with
  | "" => Ok ""
  | String c rest =>
      match skip with
      | S k => sub self default skip_escaped k false rest
      | O =>
          if (Ascii.eqb c "$" && negb (skip_escaped && escaped))%bool then
            match match_var rest with
            | Some (group1, group2, n) =>
                replacement ← spliced (replace_var self default group1 group2);
                String.append replacement <$> sub self default skip_escaped n false rest
            | None => String c <$> sub self default skip_escaped O false rest
            end
          else String c <$> sub self default skip_escaped O (Ascii.eqb c "\") rest
      end
  end.

Definition _expandvars (self : DeployContext) (path : string)
    (default : PyVal) (skip_escaped : bool) : result string :=
  sub self default skip_escaped O false path.

(** ** Execution plans *)

(** [for mod in self.service_modifications]: the items of a list, the
    characters of a string; the keys of an object come in document order,
    which the parsed map does not keep. *)
Fixpoint characters (s : string) : list Json :=
  match s with
  | "" => []
  | String c s' => JStr (String c "") :: characters s'
  end.

Definition iterate (v : Json) : result (list Json) :=
  match v with
  | JArr items => Ok items
  | JStr s => Ok (characters s)
  | JObj _ => Raise NotModelled
  | JNull | JBool _ | JNum _ => Raise TypeError
  end.

(** A modification name as a keyword argument of [format]. *)
Definition as_value (v : Json) : result PyVal :=
  match v with
  | JStr s => Ok (PStr s)
  | JNum n => Ok (PInt n)
  | JNull => Ok PNone
  | JBool _ | JArr _ | JObj _ => Raise NotModelled
  end.

Section ExecutionPlan.

(** The template collaborators are not part of these modules: a template
    is opaque, and so is whatever a monitor artifact deploys. *)
Context {Template Deploy : Type}.

(** [infra_buddy.template.template_manager.TemplateManager]; [None] is a
    lookup that finds nothing. *)
Record TemplateManager : Type := {
  get_known_service : Json -> option Template;
  get_resource_service : string -> option Template;
  get_known_service_modification : Json -> Json -> option Template;
}.

Inductive Step : Type :=
| CloudFormationDeploy (stack_name : PyVal) (template : Template)
                       (deploy_ctx : DeployContext)
| MonitorDeploy (deploy : Deploy).

(** [template.has_monitor_definition()] and
    [template.get_monitor_artifact().generate_execution_plan(deploy_ctx)] *)
Variable has_monitor_definition : Template -> bool.
Variable monitor_execution_plan : Template -> DeployContext -> list Step.

(** [ret.extend(...)] under [if template.has_monitor_definition()] *)
Definition monitor_steps (template : Template) (deploy_ctx : DeployContext)
    : list Step :=
  if has_monitor_definition template
  then monitor_execution_plan template deploy_ctx
  else [].

(** A method call on a looked-up template, which may be [None]. *)
Definition resolved (template : option Template) (method : string) : result Template :=
  match template with
  | Some t => Ok t
  | None => Raise (AttributeError method)
  end.

(** The loop over [self.service_modifications] *)
Fixpoint modification_steps (self : ServiceDefinition)
    (template_manager : TemplateManager) (deploy_ctx : DeployContext)
    (mods : list Json) : result (list Step) :=
  match mods with
  | [] => Ok []
  | mod_ :: mods' =>
      let template :=
        get_known_service_modification template_manager (service_type self) mod_ in
      mod_name ← as_value mod_;
      stack_name ← generate_modification_stack_name deploy_ctx mod_name;
      template ← resolved template "has_monitor_definition";
      rest ← modification_steps self template_manager deploy_ctx mods';
      Ok (CloudFormationDeploy (PStr stack_name) template deploy_ctx
            :: monitor_steps template deploy_ctx ++ rest)%list
  end.

Definition generate_execution_plan (self : ServiceDefinition)
    (template_manager : TemplateManager) (deploy_ctx : DeployContext)
    : result (list Step) :=
  let template := get_known_service template_manager (service_type self) in
  stack_name ← getattr deploy_ctx "stack_name";
  template ← resolved template "has_monitor_definition";
  let ret := [CloudFormationDeploy stack_name template deploy_ctx] in
  let ret := (ret ++ monitor_steps template deploy_ctx)%list in
  ret ← match get_resource_service template_manager (artifact_directory self) with
        | Some resource_deploy =>
            resource_stack_name ← getattr deploy_ctx "resource_stack_name";
            Ok (ret ++ [CloudFormationDeploy resource_stack_name resource_deploy
                                             deploy_ctx])%list
        | None => Ok ret
        end;
  mods ← iterate (service_modifications self);
  steps ← modification_steps self template_manager deploy_ctx mods;
  Ok (ret ++ steps)%list.

(** The objects a caller can pass by position. *)
Inductive Argument : Type :=
| ATemplateManager (template_manager : TemplateManager)
| ADeployContext (deploy_ctx : DeployContext).

(** A call [self.generate_execution_plan(args...)] of the bound method:
    its [def] takes two parameters after [self], and Python binds the
    arguments before the body runs, raising [TypeError] when their number
    differs. *)
Definition call_generate_execution_plan (self : ServiceDefinition)
    (args : list Argument) : result (list Step) :=
  match args with
  | [template_manager; deploy_ctx] =>
      match template_manager, deploy_ctx with
      | ATemplateManager tm, ADeployContext ctx => generate_execution_plan self tm ctx
      | ADeployContext _, _ => Raise (AttributeError "get_known_service")
      | ATemplateManager _, ATemplateManager _ => Raise (AttributeError "stack_name")
      end
  | _ => Raise TypeError
  end.

(** [DeployContext.get_execution_plan]; [template_manager] is the
    [self.template_manager] that [_initalize_defaults] builds. *)
Definition get_execution_plan (template_manager : TemplateManager)
    (self : DeployContext) : result (list Step) :=
  match service_definition self with
  | None => Raise (AttributeError "service_definition")
  | Some service_definition =>
      call_generate_execution_plan service_definition
        [ATemplateManager template_manager]
  end.

End ExecutionPlan.

#[global] Arguments TemplateManager : clear implicits.
#[global] Arguments Step : clear implicits.
#[global] Arguments Argument : clear implicits.

(** ** The other functions of the three modules *)

(** *** [helper_functions.py]: [load_balancer_name] *)

(** [s.find(sub)]: the lowest index at which [sub] occurs, or [-1]. *)
Fixpoint find_sub (needle s : string) : Z :=
  match s with
  | "" => if String.prefix needle "" then 0 else -1
  | String _ s' =>
      if String.prefix needle s then 0
      else let i := find_sub needle s' in if i <? 0 then -1 else i + 1
  end.

(** [s[i:]], where a negative [i] counts from the end. *)
Definition slice_from (s : string) (i : Z) : string :=
  let start := if i <? 0 then Z.max 0 (Z.of_nat (String.length s) + i) else i in
  substring (Z.to_nat start) (String.length s - Z.to_nat start) s.

(** [val[val.find('app/'):] if val else ""] on the exported ARN.  An export
    that is an object without [find] is an [AttributeError]. *)
Definition load_balancer_name (cf : Cloud) (deploy_ctx : DeployContext) : result string :=
  let val := _get_cluster_stack_export_value cf deploy_ctx "ElasticLoadBalancerARN" in
  if truthy val then
    match val with
    | PStr s => Ok (slice_from s (find_sub "app/" s))
    | _ => Raise (AttributeError "find")
    end
  else Ok "".

(** *** [deploy_ctx.py]: the other methods of [DeployContext] *)

Definition generate_modification_resource_stack_name
    (self : DeployContext) (mod_name : PyVal) : result string :=
  if bool_decide (is_Some (vars self !! "mod_name")) then Raise TypeError
  else format "{ENVIRONMENT}-{APPLICATION}-{ROLE}-{mod_name}-resources"
              (<["mod_name" := mod_name]> (vars self)).

Definition newline : string := String (ascii_of_nat 10) "".



Definition get_service_modifications (self : DeployContext) : result Json :=
  match service_definition self with
  | Some sd => Ok (service_modifications sd)
  | None => Raise (AttributeError "service_definition")
  end.

(** What an artifact directory holds, and the S3 collaborator. *)
Record Disk : Type := {
  service_json_in : string -> option Json;
  containerurl_in : string -> option string;
  download_zip_from_s3_url : string -> string;
}.

(** [self.update(d)] with the values of a parsed object: strings, numbers
    and [null] are entries like any other.  Python stores a boolean, a
    list or an object too; the entries of this development have no form
    for them, and [update_entries] answers [NotModelled]. *)
Definition scalar (v : Json) : option PyVal :=
  match v with
  | JStr s => Some (PStr s)
  | JNum n => Some (PInt n)
  | JNull => Some PNone
  | JBool _ | JArr _ | JObj _ => None
  end.

Definition update_entries (entries : gmap string PyVal) (d : gmap string Json)
    : result (gmap string PyVal) :=
  if bool_decide (map_Forall (fun _ v => is_Some (scalar v)) d)
  then Ok (omap scalar d ∪ entries)
  else Raise NotModelled.

Definition _initialize_artifact_directory (disk : Disk) (self : DeployContext)
    (artifact_directory : string) : result DeployContext :=
  let artifact_directory :=
    if String.prefix "s3://" artifact_directory
    then download_zip_from_s3_url disk artifact_directory
    else artifact_directory in
  match vars self !! ENVIRONMENT with
  | None => Raise (KeyError ENVIRONMENT)
  | Some environment =>
      service_definition ←
        __init__ artifact_directory (str environment)
          (service_json_in disk artifact_directory);
      application ← as_value (application service_definition);
      role ← as_value (role service_definition);
      docker_registry ← as_value (docker_registry service_definition);
      let entries :=
        <[DOCKER_REGISTRY := docker_registry]>
          (<[ROLE := role]> (<[APPLICATION := application]> (vars self))) in
      entries ← update_entries entries (deployment_parameters service_definition);
      let entries :=
        match containerurl_in disk artifact_directory with
        | Some image => <["IMAGE" := PStr image]> entries
        | None => entries
        end in
      Ok {| vars := entries;
            attrs := attrs self;
            service_definition := Some service_definition |}
  end.

Definition create_deploy_context_artifact (disk : Disk)
    (config : gmap string PyVal) (environ : gmap string string) (now : string)
    (artifact_directory environment : string) : result DeployContext :=
  let ret := DeployContext_init config environ environment in
  ret ← _initialize_artifact_directory disk ret artifact_directory;
  _initialize_environment_variables now ret.

(** *** [service_definition.py]: saving a definition *)

(** [os.path.join(a, b)] on POSIX paths *)
Definition path_join (a b : string) : string :=
  match b with
  | String "/" _ => b
  | _ =>
      if (String.eqb a "" || String.eqb (substring (String.length a - 1) 1 a) "/")%bool
      then a +:+ b
      else a +:+ "/" +:+ b
  end.

(** A value inside an f-string. *)
Definition fstr (v : Json) : result string :=
  match v with
  | JStr s => Ok s
  | JNum n => Ok (pretty n)
  | JNull => Ok "None"
  | JBool true => Ok "True"
  | JBool false => Ok "False"
  | JArr _ | JObj _ => Raise NotModelled
  end.

(** ['default_type' in definition and definition["default_type"] == "property"] *)
Definition is_property (definition : gmap string Json) : bool :=
  match definition !! "default_type" with
  | Some (JStr s) => String.eqb s "property"
  | _ => false
  end.

(** The loop of [_get_params_without_default_values] over
    [deploy_params.items()], with [ret] so far.  [os.environ.get] takes a
    string. *)
Fixpoint params_without_default_values (environ : gmap string string)
    (items : list (string * gmap string Json)) (ret : gmap string Json)
    : result (gmap string Json) :=
  match items with
  | [] => Ok ret
  | (key_, definition) :: items' =>
      if (is_property definition
          && negb (bool_decide (is_Some (definition !! "default_value"))))%bool
      then
        match definition !! "key" with
        | None => Raise (KeyError "key")
        | Some (JStr definition_key_) =>
            params_without_default_values environ items'
              (<[definition_key_ := JStr (default "" (environ !! definition_key_))]> ret)
        | Some _ => Raise TypeError
        end
      else params_without_default_values environ items' ret
  end.

Definition _get_params_without_default_values (environ : gmap string string)
    (deploy_params : list (string * gmap string Json)) : result (gmap string Json) :=
  params_without_default_values environ deploy_params ∅.

(** The rows of the parameter table in the README. *)
Fixpoint parameter_rows (items : list (string * gmap string Json))
    : result (list string) :=
  match items with
  | [] => Ok []
  | (key_, definition) :: items' =>
      if is_property definition then
        match definition !! "key" with
        | None => Raise (KeyError "key")
        | Some parameter =>
            parameter ← fstr parameter;
            description ← fstr (default (JStr "<None>") (definition !! "description"));
            default_val ← fstr (default (JStr "<None>") (definition !! "default"));
            rows ← parameter_rows items';
            Ok (("| " +:+ parameter +:+ " | " +:+ description +:+ " | "
                   +:+ default_val +:+ " |" +:+ newline) :: rows)
        end
      else parameter_rows items'
  end.

(** What [save_to_file] leaves behind when it returns: the path and object
    of the definition file, and the path and the successive writes of the
    README. *)
Record Saved : Type := {
  service_file_path : string;
  service_definition_object : gmap string Json;
  readme_file_path : string;
  readme : list string;
}.

(** [ServiceDefinition.save_to_file].  [now] is [str(datetime.datetime.now())];
    [known_service_modifications] is the items of that mapping; a falsy
    [destination] is [None] or the empty string.  What an interrupted call
    has already written is not kept. *)
Definition save_to_file (environ : gmap string string) (now : string)
    (application role : string) (deploy_params : list (string * gmap string Json))
    (service_type : string) (known_service_modifications : list (string * Json))
    (destination : option string) : result Saved :=
  let '(service_file_path, readme_file_path) :=
    match destination with
    | Some (String _ _ as destination) =>
        (path_join destination _SERVICE_DEFINITION_FILE, path_join destination "README.md")
    | _ => (_SERVICE_DEFINITION_FILE, "README.md")
    end in
  params ← _get_params_without_default_values environ deploy_params;
  let service_definition_object : gmap string Json :=
    {[ _APPLICATION := JStr application;
       _ROLE := JStr role;
       _SERVICE_TYPE := JStr service_type;
       _DEPLOYMENT_PARAMETERS := JObj params;
       _MODIFICATIONS := JArr [] ]} in
  rows ←
    (if Nat.ltb 0 (length deploy_params) then
       rows ← parameter_rows deploy_params;
       Ok (("| Parameter | Description | Default Value |" +:+ newline)
             :: ("| --- | --- | --- |" +:+ newline) :: rows)
     else Ok []);
  Ok {| service_file_path := service_file_path;
        service_definition_object := service_definition_object;
        readme_file_path := readme_file_path;
        readme :=
          [ "# Service Type: " +:+ service_type +:+ newline;
            "Generated on " +:+ now +:+ newline +:+ newline;
            "Service template may have been modified, please verify usage with:"
              +:+ newline;
            " ```bash" +:+ newline;
            "infra-buddy validate-template --service-type " +:+ service_type +:+ newline;
            "```" +:+ newline;
            "## Known Service Modifications" +:+ newline;
            "Define these service modifications in the service.json stanza '"
              +:+ _MODIFICATIONS +:+ "'" +:+ newline;
            " ```javascript" +:+ newline;
            String (ascii_of_nat 34) _MODIFICATIONS +:+ String (ascii_of_nat 34) ":[ "
              +:+ String (ascii_of_nat 34) "modification-1"
              +:+ String (ascii_of_nat 34) "]'" +:+ newline;
            "```" +:+ newline +:+ newline;
            "| Service Modification |" +:+ newline;
            "| --- |" +:+ newline ]
          ++ ((fun item => "| " +:+ item.1 +:+ " |" +:+ newline)
                <$> known_service_modifications)
          ++ [ newline;
               "## Deploy parameters" +:+ newline +:+ newline;
               "Define these parameters in the service.json stanza '"
                 +:+ _DEPLOYMENT_PARAMETERS +:+ "'" +:+ newline +:+ newline;
               "For environment specific values use the corresponding stanza in the form '<environment>-"
                 +:+ _DEPLOYMENT_PARAMETERS +:+ "'" +:+ newline;
               "this is supported for the known environments: 'dev', 'ci', and 'prod'."
                 +:+ newline +:+ newline ]
          ++ rows |}%list.

(** ** The design document's tables *)

Module Design.

(** The fixed ordered set of CPU tiers. *)
Definition cpu_tiers : list Z := [256; 512; 1024; 2048; 4096].

(** [t] is the smallest tier that is at least [v], and [4096] when [v]
    exceeds every tier. *)
Definition snaps_to (v t : Z) : Prop :=
  t ∈ cpu_tiers
  ∧ (v <= 4096 -> v <= t ∧ ∀ t', t' ∈ cpu_tiers -> v <= t' -> t <= t')
  ∧ (4096 < v -> t = 4096).

(** [lo..hi step 1024] *)
Definition in_steps (lo hi memory : Z) : Prop :=
  lo <= memory <= hi ∧ (1024 | memory).

(** The compatibility table, cpu to memory in MB. *)
Definition compatible (cpu memory : Z) : Prop :=
  (cpu = 256 ∧ memory ∈ [512; 1024; 2048])
  ∨ (cpu = 512 ∧ in_steps 1024 4096 memory)
  ∨ (cpu = 1024 ∧ in_steps 2048 8192 memory)
  ∨ (cpu = 2048 ∧ in_steps 4096 16384 memory)
  ∨ (cpu = 4096 ∧ in_steps 8192 30720 memory).

(** The fixed valid-memory set: what some tier accepts. *)
Definition valid_memory (memory : Z) : Prop := ∃ cpu, compatible cpu memory.

(** Memory normalisation: at most 512 gives 512, below 1024 gives 1024,
    otherwise the next multiple of 1024, with a ceiling of 30720. *)
Definition rounds_to (v memory : Z) : Prop :=
  (v <= 512 -> memory = 512)
  ∧ (512 < v < 1024 -> memory = 1024)
  ∧ (1024 <= v ->
       ∃ m, (1024 | m) ∧ v <= m < v + 1024 ∧ memory = Z.min m 30720).

(** The cross-validation has a counterpart to object to: the context
    holds a valid memory that the cpu tier [cpu] does not accept, or a cpu
    tier that does not accept [memory]. *)
Definition memory_rejects (deploy_ctx : DeployContext) (cpu : Z) : Prop :=
  ∃ n, vars deploy_ctx !! "TASK_SOFT_MEMORY" = Some (PStr (pretty n))
       ∧ valid_memory n ∧ ¬ compatible cpu n.

Definition cpu_rejects (deploy_ctx : DeployContext) (memory : Z) : Prop :=
  ∃ c, vars deploy_ctx !! "TASK_CPU" = Some (PInt c)
       ∧ c ∈ cpu_tiers ∧ ¬ compatible c memory.

(** The largest numeric priority among the rules, if any rule has one. *)
Fixpoint max_priority (rules : list Rule) : option Z :=
  match rules with
  | [] => None
  | rule :: rules' =>
      match rule_priority rule, max_priority rules' with
      | PrioInt n, Some m => Some (Z.max n m)
      | PrioInt n, None => Some n
      | PrioStr _, m => m
      end
  end.

(** What a maximum-priority helper returns for it. *)
Definition rendered (m : option Z) : PyVal :=
  match m with Some n => PInt n | None => PNone end.

(** A rule whose priority is an integer or the token ["default"]. *)
Definition int_or_default (r : Rule) : Prop :=
  default_rule r ∨ ∃ n, rule_priority r = PrioInt n.

(** The fatal error of a rejected pair, naming both values. *)
Definition invalid_pair (cpu memory : Z) : PyError :=
  Exception ("Attempting to use fargate with invalid configuration.  "
               +:+ pretty cpu +:+ " CPU " +:+ pretty memory +:+ " Memory").

End Design.

(** ** Templates as the design document reads them *)

(** A template is a sequence of literal characters and [{NAME}]
    placeholders; rendering it substitutes each placeholder by the value of
    its variable and fails on the first one that is missing. *)
Inductive segment : Type :=
| Lit (c : ascii)
| Field (name : string).

Fixpoint render (kwargs : gmap string PyVal) (segments : list segment) : result string :=
  match segments with
  | [] => Ok ""
  | Lit c :: segments' => String c <$> render kwargs segments'
  | Field name :: segments' =>
      match kwargs !! name with
      | Some v => String.append (str v) <$> render kwargs segments'
      | None => Raise (KeyError name)
      end
  end.

Fixpoint segments_from (field : option string) (template : string)
    : option (list segment) :=
  match template, field with
  | "", None => Some []
  | "", Some _ => None
  | String c rest, None =>
      if Ascii.eqb c "{" then segments_from (Some "") rest
      else if Ascii.eqb c "}" then None
      else cons (Lit c) <$> segments_from None rest
  | String c rest, Some name =>
      if Ascii.eqb c "}" then cons (Field name) <$> segments_from None rest
      else segments_from (Some (name +:+ String c "")) rest
  end.

(** ** Variable references as the design document reads them *)

(** A name made of word characters, and a text that goes on with one. *)
Fixpoint word (s : string) : bool :=
  match s with
  | "" => true
  | String c s' => is_word c && word s'
  end.

Definition continues_word (s : string) : bool :=
  match s with
  | "" => false
  | String c _ => is_word c
  end.

(** The text after a name, or after a dollar sign that starts none, does
    not go on with a word character: it is empty, or starts with an ASCII
    character that is none. *)
Definition ends_word (rest : string) : bool :=
  match rest with
  | "" => true
  | String c _ => negb (is_word c) && Nat.ltb (nat_of_ascii c) 128
  end.

(** A text cut into its occurrences: plain text, [${name}], [$name], and
    a dollar sign that starts no reference. *)
Inductive piece : Type :=
| Text (s : string)
| Braced (name : string)
| Bare (name : string)
| Dollar.

Definition written (p : piece) : string :=
  match p with
  | Text s => s
  | Braced name => "${" +:+ name +:+ "}"
  | Bare name => "$" +:+ name
  | Dollar => "$"
  end.

Fixpoint text_of (pieces : list piece) : string :=
  match pieces with
  | [] => ""
  | p :: pieces' => written p +:+ text_of pieces'
  end.

(** A piece is what it is called, given the text [rest] that follows
    it: plain text has no dollar sign; a braced name has no closing brace;
    a bare name is a non-empty run of word characters that ends there; a
    lone dollar sign is followed neither by a word character nor by a
    brace that is closed further on. *)
Definition shaped (p : piece) (rest : string) : Prop :=
  match p with
  | Text s => contains "$" s = false
  | Braced name => contains "}" name = false
  | Bare name => name ≠ "" ∧ word name = true ∧ ends_word rest = true
  | Dollar =>
      ends_word rest = true
      ∧ ∀ inner, rest = String "{" inner -> contains "}" inner = false
  end.

Fixpoint well_formed (pieces : list piece) : Prop :=
  match pieces with
  | [] => True
  | p :: pieces' => shaped p (text_of pieces') ∧ well_formed pieces'
  end.

(** What a reference to [name], written [verbatim] in the text, is
    replaced by.  A name resolved to a string gives that string, to
    [None] the empty text, and to a number a [TypeError].  An unresolved
    name gives what is written when there is no default, and else the
    default, which fails likewise when it is a number. *)
Definition replacement (self : DeployContext) (default : PyVal)
    (name verbatim : string) : result string :=
  match vars self !! name with
  | Some (PStr value) => Ok value
  | Some PNone => Ok ""
  | Some (PInt _) => Raise TypeError
  | None =>
      match default with
      | PNone => Ok verbatim
      | PStr d => Ok d
      | PInt _ => Raise TypeError
      end
  end.

(** Empty braces name the entry [{}]. *)
Definition expansion_of (self : DeployContext) (default : PyVal) (p : piece)
    : result string :=
  match p with
  | Text s => Ok s
  | Dollar => Ok "$"
  | Braced "" => replacement self default "{}" (written p)
  | Braced name => replacement self default name (written p)
  | Bare name => replacement self default name (written p)
  end.

(** Every piece replaced, in order. *)
Fixpoint expansion (self : DeployContext) (default : PyVal) (pieces : list piece)
    : result string :=
  match pieces with
  | [] => Ok ""
  | p :: pieces' =>
      out ← expansion_of self default p;
      String.append out <$> expansion self default pieces'
  end.

(** ** Plans as the design document orders them *)

Section PlanShape.

Context {Template Deploy : Type}.
Variable has_monitor_definition : Template -> bool.
Variable monitor_execution_plan : Template -> DeployContext -> list (Step Template Deploy).

(** One step per declared modification, in declaration order, each
    immediately followed by its monitor sub-plan when its template
    declares monitoring.  [stacks] names the stack of each modification
    and [templates] is what the lookup resolves it to. *)
Definition modification_plan (deploy_ctx : DeployContext)
    (stacks : string -> string) (templates : string -> Template) (names : list string)
    : list (Step Template Deploy) :=
  names ≫= fun name =>
    CloudFormationDeploy (PStr (stacks name)) (templates name) deploy_ctx
      :: monitor_steps has_monitor_definition monitor_execution_plan
           (templates name) deploy_ctx.

(** The shared-resource step, when its template is present. *)
Definition resource_plan (deploy_ctx : DeployContext) (resource_stack : PyVal)
    (resource : option Template) : list (Step Template Deploy) :=
  match resource with
  | Some template => [CloudFormationDeploy resource_stack template deploy_ctx]
  | None => []
  end.

(** The ordering guarantee as worded: main stack first, resource stack
    second if present, then the modifications. *)
Definition guaranteed_plan (deploy_ctx : DeployContext) (stack resource_stack : PyVal)
    (main : Template) (resource : option Template)
    (stacks : string -> string) (templates : string -> Template) (names : list string)
    : list (Step Template Deploy) :=
  (CloudFormationDeploy stack main deploy_ctx
     :: resource_plan deploy_ctx resource_stack resource
     ++ modification_plan deploy_ctx stacks templates names)%list.

(** The plan of the builder's four steps: the main stack's monitor
    sub-plan comes between the main step and the resource step. *)
Definition built_plan (deploy_ctx : DeployContext) (stack resource_stack : PyVal)
    (main : Template) (resource : option Template)
    (stacks : string -> string) (templates : string -> Template) (names : list string)
    : list (Step Template Deploy) :=
  (CloudFormationDeploy stack main deploy_ctx
     :: monitor_steps has_monitor_definition monitor_execution_plan main deploy_ctx
     ++ resource_plan deploy_ctx resource_stack resource
     ++ modification_plan deploy_ctx stacks templates names)%list.

End PlanShape.

(** ** Collaborators as the properties read them *)

(** The export cannot be had: the context has no [cluster_stack_name]
    attribute, or the lookup raises, or it finds [None] or an empty string. *)
Definition export_unavailable (cf : Cloud) (deploy_ctx : DeployContext)
    (param : string) : Prop :=
  attrs deploy_ctx !! "cluster_stack_name" = None
  ∨ ∃ cluster, attrs deploy_ctx !! "cluster_stack_name" = Some cluster
      ∧ ((∃ e, get_export_value cf cluster param = Raise e)
         ∨ get_export_value cf cluster param = Ok PNone
         ∨ get_export_value cf cluster param = Ok (PStr "")).

(** The directory a definition is read from: the download of an [s3://]
    URL, the directory itself otherwise. *)
Definition local_directory (disk : Disk) (artifact_directory : string) : string :=
  if String.prefix "s3://" artifact_directory
  then download_zip_from_s3_url disk artifact_directory
  else artifact_directory.

(** A deploy parameter that [save_to_file] leaves for the definition
    file to set: some definition of type [property], without a
    [default_value], is keyed [k]. *)
Definition asks_for (deploy_params : list (string * gmap string Json)) (k : string)
    : Prop :=
  ∃ key_ definition,
    (key_, definition) ∈ deploy_params
    ∧ is_property definition = true
    ∧ definition !! "default_value" = None
    ∧ definition !! "key" = Some (JStr k).

(** ** Sample inputs *)

Module Samples.

(** A context that holds just these entries. *)
Definition entries (d : gmap string PyVal) : DeployContext :=
  {| vars := d; attrs := ∅; service_definition := None |}.

Definition fargate : DeployContext :=
  entries {[ "USE_FARGATE" := PStr "true" ]}.

Definition fargate_memory (memory : string) : DeployContext :=
  entries {[ "USE_FARGATE" := PStr "true"; "TASK_SOFT_MEMORY" := PStr memory ]}.

Definition fargate_cpu (cpu : Z) : DeployContext :=
  entries {[ "USE_FARGATE" := PStr "true"; "TASK_CPU" := PInt cpu ]}.

(** A context with the attributes that [calculate_rule_priority] and
    [load_balancer_name] read. *)
Definition in_cluster : DeployContext :=
  {| vars := ∅;
     attrs := {[ "cluster_stack_name" := PStr "prod-foo-cluster";
                 "region" := PStr "us-west-2" ]};
     service_definition := None |}.

(** No stack deployed yet, and a listener that reports [rules]. *)
Definition listener (rules : list Rule) : Cloud :=
  {| does_stack_exist := fun _ => false;
     get_existing_parameter_value := fun _ _ => PNone;
     get_export_value := fun _ _ => Ok (PStr "arn:aws:elasticloadbalancing:listener/app/a/b");
     describe_rules := fun _ _ => Some rules |}.

(** A deployed stack that recorded its rule priority. *)
Definition deployed (priority : PyVal) : Cloud :=
  {| does_stack_exist := fun _ => true;
     get_existing_parameter_value := fun _ _ => priority;
     get_export_value := fun _ _ => Raise (Exception "unused");
     describe_rules := fun _ _ => None |}.

(** No stack deployed yet, and a cluster stack whose export lookup
    ends in [value]. *)
Definition exporting (value : result PyVal) : Cloud :=
  {| does_stack_exist := fun _ => false;
     get_existing_parameter_value := fun _ _ => PNone;
     get_export_value := fun _ _ => value;
     describe_rules := fun _ _ => None |}.

(** A context in which [NAME] is resolved to [bob]. *)
Definition named_bob : DeployContext := entries {[ "NAME" := PStr "bob" ]}.

Definition rules_of (priorities : list Priority) : list Rule :=
  Build_Rule <$> priorities.

(** The entries [create_deploy_context("foo", "api", "prod")] has put
    together, with the region in the process environment and no defaults
    file, when it calls [_initialize_environment_variables]. *)
Definition prod_foo_api_entries : DeployContext :=
  setitem ROLE (PStr "api")
    (setitem APPLICATION (PStr "foo")
       (DeployContext_init ∅ {[ "REGION" := "us-west-2" ]} "prod")).

(** A context for [prod], [foo] and [api] that holds the entries and the
    attributes a plan reads. *)
Definition prod_foo_api_ctx : DeployContext :=
  {| vars := {[ "ENVIRONMENT" := PStr "prod";
                "APPLICATION" := PStr "foo";
                "ROLE" := PStr "api";
                "REGION" := PStr "us-west-2";
                "STACK_NAME" := PStr "prod-foo-api";
                "RESOURCE_STACK_NAME" := PStr "prod-foo-api-resources" ]};
     attrs := {[ "stack_name" := PStr "prod-foo-api";
                 "resource_stack_name" := PStr "prod-foo-api-resources";
                 "region" := PStr "us-west-2" ]};
     service_definition := None |}.

(** The modification stacks of that context. *)
Definition prod_foo_api_stacks (name : string) : string := "prod-foo-api-" +:+ name.

(** A definition file with an override for [prod] and one modification. *)
Definition service_json : gmap string Json :=
  {[ "application" := JStr "foo";
     "role" := JStr "api";
     "service-type" := JStr "cluster";
     "deployment-parameters" :=
       JObj {[ "TASK_CPU" := JNum 256; "TASK_SOFT_MEMORY" := JStr "512" ]};
     "prod-deployment-parameters" :=
       JObj {[ "TASK_CPU" := JNum 1024; "DESIRED_COUNT" := JNum 3 ]};
     "service-modifications" := JArr [JStr "cache"] ]}.

(** Templates named by a string; only ["monitored"] ones declare
    monitoring, and their monitor deploys one step. *)
Definition known : TemplateManager string :=
  {| get_known_service := fun service_type =>
       match service_type with JStr t => Some t | _ => None end;
     get_resource_service := fun _ => Some "aws-resources.template";
     get_known_service_modification := fun _ modification =>
       match modification with JStr m => Some m | _ => None end |}.

(** The same templates, but for one modification that is not known. *)
Definition known_but (missing : string) : TemplateManager string :=
  {| get_known_service := get_known_service known;
     get_resource_service := get_resource_service known;
     get_known_service_modification := fun _ modification =>
       match modification with
       | JStr m => if String.eqb m missing then None else Some m
       | _ => None
       end |}.

Definition monitored (template : string) : bool := String.eqb template "monitored".

Definition monitor (template : string) (deploy_ctx : DeployContext)
    : list (Step string string) :=
  [MonitorDeploy (template +:+ "-monitor")].

Definition definition (service_type : string) (modifications : list string)
    : ServiceDefinition :=
  {| artifact_directory := "/srv/foo";
     application := JStr "foo";
     role := JStr "api";
     service_type := JStr service_type;
     docker_registry := JStr "";
     deployment_parameters := ∅;
     service_modifications := JArr (JStr <$> modifications) |}.

(** The parameters of a template: one to be set, one with a default
    value, one that is not a property. *)
Definition deploy_params : list (string * gmap string Json) :=
  [ ("ApiKey", {[ "default_type" := JStr "property"; "key" := JStr "API_KEY";
                  "description" := JStr "Key of the API" ]});
    ("Cpu", {[ "default_type" := JStr "property"; "key" := JStr "TASK_CPU";
               "default_value" := JNum 256 ]});
    ("Priority", {[ "default_type" := JStr "func"; "key" := JStr "RULE_PRIORITY" ]}) ].

(** An artifact directory [/srv/foo] that holds [service_json] and an
    image reference; [s3://] URLs are unpacked there. *)
Definition disk : Disk :=
  {| service_json_in := fun directory =>
       if String.eqb directory "/srv/foo" then Some (JObj service_json) else None;
     containerurl_in := fun directory =>
       if String.eqb directory "/srv/foo" then Some "registry/foo:1" else None;
     download_zip_from_s3_url := fun _ => "/srv/foo" |}.

End Samples.

(** * Properties *)

(** ** Fargate resources *)

Section Fargate.

Implicit Types (deploy_ctx : DeployContext) (v t n : Z) (m : string).

#[local] Arguments str_in : simpl never.

Lemma using_fargate_true deploy_ctx :
  _using_fargate deploy_ctx = true
  <-> vars deploy_ctx !! "USE_FARGATE" = Some (PStr "true").
Proof.
  unfold _using_fargate, get. rewrite bool_decide_eq_true.
  destruct (vars deploy_ctx !! "USE_FARGATE") as [x|]; split; congruence.
Qed.

Lemma using_fargate_false deploy_ctx :
  _using_fargate deploy_ctx = false
  <-> vars deploy_ctx !! "USE_FARGATE" ≠ Some (PStr "true").
Proof.
  rewrite <- using_fargate_true. destruct (_using_fargate deploy_ctx); split; congruence.
Qed.

Lemma get_valid_fargate_cpu_snaps v : Design.snaps_to v (_get_valid_fargate_cpu v).
Proof.
  unfold Design.snaps_to, Design.cpu_tiers, _get_valid_fargate_cpu.
  repeat case_match; (split; [set_solver|]); split; intros;
    try lia; (split; [lia|]); intros t' Ht' ?;
    set_unfold in Ht'; lia.
Qed.

Lemma snaps_to_unique v t t' : Design.snaps_to v t -> Design.snaps_to v t' -> t = t'.
Proof.
  intros (Ht & Hle & Hgt) (Ht' & Hle' & Hgt').
  destruct (Z_le_gt_dec v 4096) as [Hv|Hv].
  - destruct (Hle Hv) as [? Hmin], (Hle' Hv) as [? Hmin'].
    specialize (Hmin _ Ht'). specialize (Hmin' _ Ht). lia.
  - rewrite Hgt, Hgt' by lia. done.
Qed.

Lemma str_in_elem m (l : list string) : str_in m l = true <-> m ∈ l.
Proof.
  unfold str_in. rewrite existsb_exists, list_elem_of_In. split.
  - intros (x & Hx & Heq). apply String.eqb_eq in Heq. by subst.
  - intros Hm. exists m. split; [done | apply String.eqb_refl].
Qed.

Lemma str_in_not_elem m (l : list string) : str_in m l = false <-> m ∉ l.
Proof.
  rewrite <- str_in_elem. destruct (str_in m l); split; congruence.
Qed.

(** The rows of the table, as the comprehension writes them. *)
Abbreviation steps a b := ((fun i => pretty (i * 1024)) <$> range a b).

Lemma elem_steps n a b : pretty n ∈ steps a b <-> ∃ i, a <= i < b ∧ n = i * 1024.
Proof.
  rewrite list_elem_of_fmap. unfold range. split.
  - intros (i & Heq & Hi). apply (inj pretty) in Heq.
    apply elem_of_seqZ in Hi. exists i. lia.
  - intros (i & Hi & ->). exists i. split; [done|]. apply elem_of_seqZ. lia.
Qed.

Lemma in_steps_iff lo hi n a b :
  lo = a * 1024 -> hi = (b - 1) * 1024 ->
  Design.in_steps lo hi n <-> ∃ i, a <= i < b ∧ n = i * 1024.
Proof.
  intros -> ->. unfold Design.in_steps. split.
  - intros [Hn [k ->]]. exists k. lia.
  - intros (i & Hi & ->). split; [lia | by exists i].
Qed.

Lemma getitem_resources t :
  getitem _valid_fargate_resources t =
    if t =? 256 then Some ["512"; "1024"; "2048"]
    else if t =? 512 then Some (steps 1 5)
    else if t =? 1024 then Some (steps 2 9)
    else if t =? 2048 then Some (steps 4 17)
    else if t =? 4096 then Some (steps 8 31)
    else None.
Proof.
  unfold _valid_fargate_resources, getitem.
  rewrite !(Z.eqb_sym _ t). reflexivity.
Qed.

Lemma getitem_resources_tier t :
  is_Some (getitem _valid_fargate_resources t) <-> t ∈ Design.cpu_tiers.
Proof.
  rewrite getitem_resources. unfold Design.cpu_tiers.
  repeat case_match; rewrite ?Z.eqb_eq, ?Z.eqb_neq in *; subst; split;
    try (intros _; set_solver);
    try (intros [? [=]]); intros Ht; set_unfold in Ht; lia.
Qed.

(** The table of the code holds the decimal renderings of the table of
    the design document. *)
Lemma table_compatible t n :
  Design.compatible t n
  <-> ∃ l, getitem _valid_fargate_resources t = Some l ∧ pretty n ∈ l.
Proof.
  rewrite getitem_resources. unfold Design.compatible.
  rewrite (in_steps_iff 1024 4096 n 1 5), (in_steps_iff 2048 8192 n 2 9),
    (in_steps_iff 4096 16384 n 4 17), (in_steps_iff 8192 30720 n 8 31) by done.
  rewrite <- !elem_steps. split.
  - intros [[? H]|[[? H]|[[? H]|[[? H]|[? H]]]]]; subst; simpl; eexists; (split; [done|]);
      try done.
    set_unfold in H. destruct H as [-> | [-> | [-> | []]]]; set_solver.
  - intros (l & Hl & Hin). repeat case_match; rewrite ?Z.eqb_eq in *; subst;
      simplify_eq; auto 10.
    left. split; [done|].
    change ["512"; "1024"; "2048"] with (pretty <$> [512; 1024; 2048]) in Hin.
    apply list_elem_of_fmap in Hin as (k & Heq & Hk). by apply (inj pretty) in Heq as ->.
Qed.

Lemma valid_fargate_memories_rows :
  _valid_fargate_memories =
    (["512"; "1024"; "2048"] ++ steps 1 5 ++ steps 2 9 ++ steps 4 17 ++ steps 8 31)%list.
Proof. reflexivity. Qed.

Lemma memories_valid n :
  Design.valid_memory n <-> pretty n ∈ _valid_fargate_memories.
Proof.
  unfold Design.valid_memory. setoid_rewrite table_compatible.
  rewrite valid_fargate_memories_rows, !elem_of_app. split.
  - intros (t & l & Hl & Hin). rewrite getitem_resources in Hl.
    repeat case_match; simplify_eq; auto 10.
  - intros [H|[H|[H|[H|H]]]];
      [exists 256|exists 512|exists 1024|exists 2048|exists 4096];
      eexists; (split; [reflexivity|]); exact H.
Qed.

(** What the cross-validation does on either side. *)
Lemma validate_cpu_side deploy_ctx t l :
  getitem _valid_fargate_resources t = Some l ->
  _validate_fargate_resource_allocation (PInt t) PNone deploy_ctx =
    match vars deploy_ctx !! "TASK_SOFT_MEMORY" with
    | Some (PStr m) =>
        if str_in m _valid_fargate_memories then
          if str_in m l then Ok tt
          else Raise (Exception (invalid_configuration (PInt t) (PStr m)))
        else Ok tt
    | _ => Ok tt
    end.
Proof.
  intros Hl. unfold _validate_fargate_resource_allocation, get, in_memories, check_pair.
  rewrite Hl. destruct (vars deploy_ctx !! "TASK_SOFT_MEMORY") as [[| |m]|]; try done.
  destruct (str_in m _valid_fargate_memories); done.
Qed.

Lemma validate_memory_side deploy_ctx m :
  _validate_fargate_resource_allocation PNone (PStr m) deploy_ctx =
    match vars deploy_ctx !! "TASK_CPU" with
    | Some (PInt c) =>
        match getitem _valid_fargate_resources c with
        | Some l =>
            if str_in m l then Ok tt
            else Raise (Exception (invalid_configuration (PInt c) (PStr m)))
        | None => Ok tt
        end
    | _ => Ok tt
    end.
Proof.
  unfold _validate_fargate_resource_allocation, get, in_resources, check_pair.
  destruct (vars deploy_ctx !! "TASK_CPU") as [[|c|]|]; try done.
  destruct (getitem _valid_fargate_resources c) as [l|] eqn:Hl; done.
Qed.

Lemma memories_decimal m :
  m ∈ _valid_fargate_memories -> ∃ n, m = pretty n ∧ Design.valid_memory n.
Proof.
  intros Hm. assert (∃ n, m = pretty n) as [n ->].
  { rewrite valid_fargate_memories_rows, !elem_of_app in Hm.
    change ["512"; "1024"; "2048"] with (pretty <$> [512; 1024; 2048]) in Hm.
    rewrite !list_elem_of_fmap in Hm. naive_solver. }
  exists n. split; [done|]. by apply memories_valid.
Qed.

Lemma transform_fargate_cpu_outcome deploy_ctx v :
  vars deploy_ctx !! "USE_FARGATE" = Some (PStr "true") ->
  let t := _get_valid_fargate_cpu v in
  (Design.memory_rejects deploy_ctx t ->
     ∃ n, vars deploy_ctx !! "TASK_SOFT_MEMORY" = Some (PStr (pretty n))
          ∧ transform_fargate_cpu deploy_ctx (PInt v) = Raise (Design.invalid_pair t n))
  ∧ (¬ Design.memory_rejects deploy_ctx t ->
       transform_fargate_cpu deploy_ctx (PInt v) = Ok (PInt t)).
Proof.
  intros Hon t. unfold transform_fargate_cpu.
  apply using_fargate_true in Hon as ->. fold t.
  assert (Ht : t ∈ Design.cpu_tiers) by apply get_valid_fargate_cpu_snaps.
  apply getitem_resources_tier in Ht as [l Hl].
  rewrite (validate_cpu_side _ _ _ Hl). split.
  - intros (n & Hn & Hvalid & Hbad). exists n. split; [done|]. rewrite Hn.
    apply memories_valid, str_in_elem in Hvalid as ->.
    rewrite (proj2 (str_in_not_elem _ _)); [done|].
    intros Hin. apply Hbad, table_compatible. eauto.
  - intros Hok. destruct (vars deploy_ctx !! "TASK_SOFT_MEMORY") as [[| |m]|] eqn:Hm; try done.
    destruct (str_in m _valid_fargate_memories) eqn:Hvalid; [|done].
    destruct (str_in m l) eqn:Hin; [done|]. exfalso. apply Hok.
    apply str_in_elem, memories_decimal in Hvalid as (n & -> & Hvalid).
    exists n. split; [done|]. split; [done|].
    intros (l' & Hl' & Hin')%table_compatible. simplify_eq.
    apply str_in_elem in Hin'. congruence.
Qed.

Lemma float_limit_large : 2 ^ 53 < float_limit.
Proof. change float_limit with (2 ^ 1024 - 2 ^ 970). by vm_compute. Qed.

Lemma get_valid_fargate_memory_overflow v :
  float_limit <= v -> _get_valid_fargate_memory v = Raise OverflowError.
Proof.
  intros Hv. pose proof float_limit_large as Hlarge.
  assert (H53 : 2 ^ 53 = 9007199254740992) by done.
  unfold _get_valid_fargate_memory.
  destruct (Z.leb_spec v 512); [lia|]. destruct (Z.ltb_spec v 1024); [lia|].
  by destruct (Z.leb_spec float_limit v); [|lia].
Qed.

Lemma get_valid_fargate_memory_rounds v :
  v < float_limit ->
  ∃ n, Design.rounds_to v n ∧ Design.valid_memory n
       ∧ str <$> _get_valid_fargate_memory v = Ok (pretty n).
Proof.
  intros Hlimit. unfold _get_valid_fargate_memory, Design.rounds_to.
  destruct (Z.leb_spec v 512) as [Hv|Hv].
  { exists 512. split; [|split; [|done]].
    - repeat split; intros; (done || lia).
    - exists 256. left. split; [done | set_solver]. }
  destruct (Z.ltb_spec v 1024) as [Hv'|Hv'].
  { exists 1024. split; [|split; [|done]].
    - repeat split; intros; (done || lia).
    - exists 256. left. split; [done | set_solver]. }
  destruct (Z.leb_spec float_limit v); [lia|].
  set (m := - (- v / 1024) * 1024).
  assert (Hdiv : (1024 | m)) by (by exists (- (- v / 1024))).
  assert (Hm : v <= m < v + 1024).
  { unfold m. pose proof (Z.div_mod (- v) 1024 ltac:(done)).
    pose proof (Z.mod_pos_bound (- v) 1024 ltac:(done)). lia. }
  exists (Z.min m 30720). split; [|split].
  - split; [lia|]. split; [lia|]. intros _. by exists m.
  - assert (Hdiv' : (1024 | Z.min m 30720)).
    { destruct (Z.min_spec m 30720) as [[_ ->]|[_ ->]]; [done | by exists 30]. }
    assert (1024 <= Z.min m 30720 <= 30720) by lia.
    destruct (Z_le_gt_dec (Z.min m 30720) 4096);
      [exists 512; right; left; by repeat split; try lia|].
    destruct (Z_le_gt_dec (Z.min m 30720) 8192);
      [exists 1024; do 2 right; left; by repeat split; try lia|].
    exists 4096. do 4 right. by repeat split; try lia.
  - destruct (Z.gtb_spec m 30720); simpl; do 2 f_equal; lia.
Qed.

Lemma rounds_to_unique v n n' : Design.rounds_to v n -> Design.rounds_to v n' -> n = n'.
Proof.
  intros (H1 & H2 & H3) (H1' & H2' & H3').
  destruct (Z_le_gt_dec v 512); [rewrite H1, H1' by lia; done|].
  destruct (Z_lt_ge_dec v 1024); [rewrite H2, H2' by lia; done|].
  destruct H3 as (m & [k ->] & ? & ->); [lia|].
  destruct H3' as (m' & [k' ->] & ? & ->); [lia|].
  assert (k = k') by lia. by subst.
Qed.

Lemma requested_memory_decimal request memory :
  requested_memory request = Ok memory ->
  ∃ n, memory = PStr (pretty n) ∧ Design.valid_memory n.
Proof.
  unfold requested_memory, print_utility_error.
  destruct request as [|v|s]; simpl; [done| |].
  - destruct (Z_lt_ge_dec v float_limit) as [Hv|Hv].
    + destruct (get_valid_fargate_memory_rounds v Hv) as (n & _ & ? & Hn).
      destruct (_get_valid_fargate_memory v) as [memory'|]; [|done].
      injection Hn as Hn. cbn [mbind result_bind]. intros [= <-]. rewrite Hn. eauto.
    + by rewrite get_valid_fargate_memory_overflow by lia.
  - destruct (str_in s _valid_fargate_memories) eqn:Hs; simpl; [|done]. intros [= <-].
    apply str_in_elem, memories_decimal in Hs as (n & -> & ?). eauto.
Qed.

Lemma transform_fargate_memory_outcome deploy_ctx request n :
  vars deploy_ctx !! "USE_FARGATE" = Some (PStr "true") ->
  requested_memory request = Ok (PStr (pretty n)) ->
  (Design.cpu_rejects deploy_ctx n ->
     ∃ c, vars deploy_ctx !! "TASK_CPU" = Some (PInt c)
          ∧ transform_fargate_memory deploy_ctx request = Raise (Design.invalid_pair c n))
  ∧ (¬ Design.cpu_rejects deploy_ctx n ->
       transform_fargate_memory deploy_ctx request = Ok (PStr (pretty n))).
Proof.
  intros Hon Hreq. unfold transform_fargate_memory.
  apply using_fargate_true in Hon as ->. rewrite Hreq. cbn [mbind result_bind].
  rewrite validate_memory_side. split.
  - intros (c & Hc & Ht & Hbad). exists c. split; [done|]. rewrite Hc.
    apply getitem_resources_tier in Ht as [l Hl]. rewrite Hl.
    rewrite (proj2 (str_in_not_elem _ _)); [done|].
    intros Hin. apply Hbad, table_compatible. eauto.
  - intros Hok. destruct (vars deploy_ctx !! "TASK_CPU") as [[|c|]|] eqn:Hc; try done.
    destruct (getitem _valid_fargate_resources c) as [l|] eqn:Hl; [|done].
    destruct (str_in (pretty n) l) eqn:Hin; [done|]. exfalso. apply Hok.
    exists c. split; [done|]. split; [apply getitem_resources_tier; eauto|].
    intros (l' & Hl' & Hin')%table_compatible. simplify_eq.
    apply str_in_elem in Hin'. congruence.
Qed.

Lemma transform_fargate_off deploy_ctx :
  vars deploy_ctx !! "USE_FARGATE" ≠ Some (PStr "true") ->
  ∀ request, transform_fargate_cpu deploy_ctx request = Ok PNone
             ∧ transform_fargate_memory deploy_ctx request = Ok PNone.
Proof.
  intros Hoff%using_fargate_false request.
  unfold transform_fargate_cpu, transform_fargate_memory. by rewrite Hoff.
Qed.

(** The four requests of the design document, with nothing to
    cross-validate against. *)
Example transform_fargate_cpu_examples :
  transform_fargate_cpu Samples.fargate <$> [PInt 200; PInt 600; PInt 4096; PInt 9000]
  = Ok <$> [PInt 256; PInt 1024; PInt 4096; PInt 4096].
Proof. reflexivity. Qed.

Example transform_fargate_memory_examples :
  transform_fargate_memory Samples.fargate <$> [PInt 400; PInt 900; PInt 2050; PInt 40000]
  = Ok <$> [PStr "512"; PStr "1024"; PStr "3072"; PStr "30720"].
Proof. reflexivity. Qed.

(** C3, as stated, asks that a successful transform found its counterpart
    in the context.  A context without [TASK_SOFT_MEMORY] refutes it: the
    validation is skipped and the cpu is returned. *)
Lemma cross_validation_needs_no_counterpart :
  ¬ (∀ deploy_ctx v r,
       vars deploy_ctx !! "USE_FARGATE" = Some (PStr "true") ->
       transform_fargate_cpu deploy_ctx (PInt v) = Ok r ->
       ∃ n, vars deploy_ctx !! "TASK_SOFT_MEMORY" = Some (PStr (pretty n))
            ∧ Design.compatible (_get_valid_fargate_cpu v) n).
Proof.
  intros H. destruct (H Samples.fargate 200 (PInt 256)) as (n & Hn & _); done.
Qed.

(** C3, amended: with [USE_FARGATE] equal to ["true"], the normalised
    value is checked against its counterpart when the context holds one
    that the table knows ([TASK_SOFT_MEMORY] a valid-memory string,
    [TASK_CPU] an integer tier): a pair of the compatibility table passes,
    any other pair is the fatal error naming both values.  Without such a
    counterpart the validation is skipped and the transform succeeds. *)
Theorem cross_validation deploy_ctx :
  vars deploy_ctx !! "USE_FARGATE" = Some (PStr "true") ->
  (∀ v, let t := _get_valid_fargate_cpu v in
     (∀ n, vars deploy_ctx !! "TASK_SOFT_MEMORY" = Some (PStr (pretty n)) ->
           Design.valid_memory n ->
           (Design.compatible t n ->
              transform_fargate_cpu deploy_ctx (PInt v) = Ok (PInt t))
           ∧ (¬ Design.compatible t n ->
                transform_fargate_cpu deploy_ctx (PInt v)
                = Raise (Design.invalid_pair t n)))
     ∧ ((∀ n, Design.valid_memory n ->
              vars deploy_ctx !! "TASK_SOFT_MEMORY" ≠ Some (PStr (pretty n))) ->
          transform_fargate_cpu deploy_ctx (PInt v) = Ok (PInt t)))
  ∧ (∀ request n, requested_memory request = Ok (PStr (pretty n)) ->
       (∀ c, vars deploy_ctx !! "TASK_CPU" = Some (PInt c) ->
             c ∈ Design.cpu_tiers ->
             (Design.compatible c n ->
                transform_fargate_memory deploy_ctx request = Ok (PStr (pretty n)))
             ∧ (¬ Design.compatible c n ->
                  transform_fargate_memory deploy_ctx request
                  = Raise (Design.invalid_pair c n)))
       ∧ ((∀ c, c ∈ Design.cpu_tiers ->
                vars deploy_ctx !! "TASK_CPU" ≠ Some (PInt c)) ->
            transform_fargate_memory deploy_ctx request = Ok (PStr (pretty n)))).
Proof.
  intros Hon. split.
  - intros v t. destruct (transform_fargate_cpu_outcome deploy_ctx v Hon) as [Hbad Hok].
    fold t in Hbad, Hok. split.
    + intros n Hn Hvalid. split.
      * intros Hc. apply Hok. intros (n' & Hn' & _ & Hbad').
        rewrite Hn in Hn'. injection Hn' as ->%(inj pretty). done.
      * intros Hc. destruct Hbad as (n' & Hn' & ->); [by exists n|].
        rewrite Hn in Hn'. by injection Hn' as ->%(inj pretty).
    + intros Hnone. apply Hok. intros (n & Hn & Hvalid & _). by apply (Hnone n).
  - intros request n Hreq.
    destruct (transform_fargate_memory_outcome deploy_ctx request n Hon Hreq) as [Hbad Hok].
    split.
    + intros c Hc Ht. split.
      * intros Hcompat. apply Hok. intros (c' & Hc' & _ & Hbad'). congruence.
      * intros Hcompat. destruct Hbad as (c' & Hc' & ->); [by exists c|]. congruence.
    + intros Hnone. apply Hok. intros (c & Hc & Ht & _). by apply (Hnone c).
Qed.

(** The design document's rejected pair: a request that normalises to cpu
    256 in a context whose memory is ["4096"]. *)
Lemma cross_validation_witness :
  vars (Samples.fargate_memory "4096") !! "USE_FARGATE" = Some (PStr "true")
  ∧ transform_fargate_cpu (Samples.fargate_memory "4096") (PInt 200)
    = Raise (Exception
        "Attempting to use fargate with invalid configuration.  256 CPU 4096 Memory").
Proof.
  split; [reflexivity|].
  destruct (cross_validation (Samples.fargate_memory "4096") eq_refl) as [Hcpu _].
  destruct (Hcpu 200) as [Hpair _].
  change (_get_valid_fargate_cpu 200) with 256 in Hpair.
  apply (Hpair 4096); [reflexivity | |].
  - exists 512. right. left. split; [reflexivity|]. split; [lia | by exists 4].
  - intros [[_ H]|[[? _]|[[? _]|[[? _]|[? _]]]]]; [|lia..].
    set_unfold in H. lia.
Defined.

(** C6, as stated, has the transform return the tier for every request.
    A context whose memory no request for 200 cpu units can go with
    refutes it: the cross-validation raises instead. *)
Lemma transform_fargate_cpu_can_raise :
  ¬ (∀ deploy_ctx v,
       vars deploy_ctx !! "USE_FARGATE" = Some (PStr "true") ->
       ∃ t, Design.snaps_to v t
            ∧ transform_fargate_cpu deploy_ctx (PInt v) = Ok (PInt t)).
Proof.
  intros H.
  destruct (H (Samples.fargate_memory "30720") 200 eq_refl) as (t & _ & Heq).
  vm_compute in Heq. discriminate.
Qed.

(** C6, amended: with [USE_FARGATE] equal to ["true"], a numeric request
    [v] snaps to the smallest tier of 256, 512, 1024, 2048, 4096 that is
    at least [v], and to 4096 beyond; [transform_fargate_cpu] returns that
    tier unless the context holds a valid memory the tier does not accept,
    in which case it raises the fatal error for the pair.  With any other
    [USE_FARGATE], or none, it returns [None]. *)
Theorem transform_fargate_cpu_snaps deploy_ctx :
  (vars deploy_ctx !! "USE_FARGATE" = Some (PStr "true") ->
     ∀ v, ∃ t, Design.snaps_to v t
       ∧ (¬ Design.memory_rejects deploy_ctx t ->
            transform_fargate_cpu deploy_ctx (PInt v) = Ok (PInt t))
       ∧ (Design.memory_rejects deploy_ctx t ->
            ∃ n, vars deploy_ctx !! "TASK_SOFT_MEMORY" = Some (PStr (pretty n))
                 ∧ transform_fargate_cpu deploy_ctx (PInt v)
                   = Raise (Design.invalid_pair t n)))
  ∧ (vars deploy_ctx !! "USE_FARGATE" ≠ Some (PStr "true") ->
       ∀ request, transform_fargate_cpu deploy_ctx request = Ok PNone).
Proof.
  split.
  - intros Hon v. exists (_get_valid_fargate_cpu v).
    split; [apply get_valid_fargate_cpu_snaps|].
    destruct (transform_fargate_cpu_outcome deploy_ctx v Hon). done.
  - intros Hoff request. by apply transform_fargate_off.
Qed.

Lemma transform_fargate_cpu_snaps_witness :
  (∃ t, Design.snaps_to 600 t
        ∧ transform_fargate_cpu Samples.fargate (PInt 600) = Ok (PInt t))
  ∧ transform_fargate_cpu (Samples.entries ∅) (PInt 600) = Ok PNone.
Proof.
  split.
  - destruct (transform_fargate_cpu_snaps Samples.fargate) as [Hon _].
    destruct (Hon eq_refl 600) as (t & Hsnap & Hok & _).
    exists t. split; [exact Hsnap|]. apply Hok.
    intros (n & Hn & _). discriminate Hn.
  - destruct (transform_fargate_cpu_snaps (Samples.entries ∅)) as [_ Hoff].
    apply Hoff. discriminate.
Defined.

(** C5, as stated, has the transform return the rounded memory for every
    numeric request.  With a cpu of 4096 in the context, a request for 400
    rounds to 512, which that cpu does not accept, and the transform
    raises. *)
Lemma transform_fargate_memory_can_raise :
  ¬ (∀ deploy_ctx v,
       vars deploy_ctx !! "USE_FARGATE" = Some (PStr "true") ->
       ∃ n, Design.rounds_to v n
            ∧ transform_fargate_memory deploy_ctx (PInt v) = Ok (PStr (pretty n))).
Proof.
  intros H.
  destruct (H (Samples.fargate_cpu 4096) 400 eq_refl) as (n & _ & Heq).
  vm_compute in Heq. discriminate.
Qed.

(** C5, amended: with [USE_FARGATE] equal to ["true"], an integer request
    [v] below [float_limit], which is [2 ^ 1024 - 2 ^ 970], rounds to 512
    when [v <= 512], to 1024 when [512 < v < 1024], and otherwise to the
    next multiple of 1024, at most 30720; a string request stands for
    itself when it is in the valid-memory set, and is a fatal error when
    it is not.  [transform_fargate_memory] returns the decimal string of
    that memory unless the context holds a cpu tier that does not accept
    it, in which case it raises the fatal error for the pair.  An integer
    request of [float_limit] or more cannot be divided as a float, and the
    call raises an [OverflowError].  With any other [USE_FARGATE], or
    none, it returns [None]. *)
Theorem transform_fargate_memory_rounds deploy_ctx :
  (vars deploy_ctx !! "USE_FARGATE" = Some (PStr "true") ->
     (∀ v, v < float_limit ->
        ∃ n, Design.rounds_to v n
        ∧ (¬ Design.cpu_rejects deploy_ctx n ->
             transform_fargate_memory deploy_ctx (PInt v) = Ok (PStr (pretty n)))
        ∧ (Design.cpu_rejects deploy_ctx n ->
             ∃ c, vars deploy_ctx !! "TASK_CPU" = Some (PInt c)
                  ∧ transform_fargate_memory deploy_ctx (PInt v)
                    = Raise (Design.invalid_pair c n)))
     ∧ (∀ v, float_limit <= v ->
          transform_fargate_memory deploy_ctx (PInt v) = Raise OverflowError)
     ∧ (∀ n, Design.valid_memory n ->
          (¬ Design.cpu_rejects deploy_ctx n ->
             transform_fargate_memory deploy_ctx (PStr (pretty n))
             = Ok (PStr (pretty n)))
          ∧ (Design.cpu_rejects deploy_ctx n ->
               ∃ c, vars deploy_ctx !! "TASK_CPU" = Some (PInt c)
                    ∧ transform_fargate_memory deploy_ctx (PStr (pretty n))
                      = Raise (Design.invalid_pair c n)))
     ∧ (∀ s, (∀ n, Design.valid_memory n -> s ≠ pretty n) ->
          ∃ msg, transform_fargate_memory deploy_ctx (PStr s)
                 = Raise (Exception msg)))
  ∧ (vars deploy_ctx !! "USE_FARGATE" ≠ Some (PStr "true") ->
       ∀ request, transform_fargate_memory deploy_ctx request = Ok PNone).
Proof.
  split.
  - intros Hon. split; [|split; [|split]].
    + intros v Hv.
      destruct (get_valid_fargate_memory_rounds v Hv) as (n & Hn & _ & Hstr).
      exists n. split; [done|].
      destruct (transform_fargate_memory_outcome deploy_ctx (PInt v) n Hon); [|done].
      cbn [requested_memory].
      destruct (_get_valid_fargate_memory v) as [memory|]; [|done].
      injection Hstr as Hstr. cbn [mbind result_bind]. by rewrite Hstr.
    + intros v Hv. unfold transform_fargate_memory, requested_memory.
      apply using_fargate_true in Hon as ->.
      by rewrite get_valid_fargate_memory_overflow.
    + intros n Hn.
      destruct (transform_fargate_memory_outcome deploy_ctx (PStr (pretty n)) n Hon);
        [|done].
      unfold requested_memory.
      by apply memories_valid, str_in_elem in Hn as ->.
    + intros s Hs. exists (invalid_memory s).
      unfold transform_fargate_memory, requested_memory.
      apply using_fargate_true in Hon as ->.
      rewrite (proj2 (str_in_not_elem _ _)); [done|].
      intros (n & -> & Hn)%memories_decimal. by apply (Hs n).
  - intros Hoff request. by apply transform_fargate_off.
Qed.

Lemma transform_fargate_memory_rounds_witness :
  (∃ n, Design.rounds_to 2050 n
        ∧ transform_fargate_memory Samples.fargate (PInt 2050) = Ok (PStr (pretty n)))
  ∧ transform_fargate_memory Samples.fargate (PInt (2 ^ 1024)) = Raise OverflowError
  ∧ transform_fargate_memory (Samples.entries ∅) (PInt 2050) = Ok PNone.
Proof.
  pose proof float_limit_large as Hlarge.
  assert (H53 : 2 ^ 53 = 9007199254740992) by done.
  split; [|split].
  - destruct (transform_fargate_memory_rounds Samples.fargate) as [Hon _].
    destruct (Hon eq_refl) as (Hint & _).
    destruct (Hint 2050) as (n & Hround & Hok & _); [lia|].
    exists n. split; [exact Hround|]. apply Hok.
    intros (c & Hc & _). discriminate Hc.
  - destruct (transform_fargate_memory_rounds Samples.fargate) as [Hon _].
    destruct (Hon eq_refl) as (_ & Hover & _). apply Hover.
    change float_limit with (2 ^ 1024 - 2 ^ 970).
    assert (0 < 2 ^ 970) by (by apply Z.pow_pos_nonneg). lia.
  - destruct (transform_fargate_memory_rounds (Samples.entries ∅)) as [_ Hoff].
    apply Hoff. discriminate.
Defined.

End Fargate.



(** ** Rule priorities *)

Section RulePriority.

Implicit Types (cf : Cloud) (deploy_ctx : DeployContext) (rules : list Rule).

Lemma insert_desc_Forall (P : Rule -> Prop) r rules :
  P r -> Forall P rules -> Forall P (insert_desc r rules).
Proof.
  intros Hr. induction 1 as [|r' rules' Hr' Hrules' IH]; simpl; [by repeat constructor|].
  destruct (key_lt _ _); repeat constructor; assumption.
Qed.

Lemma sorted_reverse_Forall (P : Rule -> Prop) rules :
  Forall P rules -> Forall P (sorted_reverse rules).
Proof.
  unfold sorted_reverse. induction 1; simpl; [done|]. by apply insert_desc_Forall.
Qed.

Lemma first_non_default_none rules :
  Forall default_rule rules -> first_non_default rules = Ok PNone.
Proof.
  induction 1 as [|r rules' Hr _ IH]; simpl; [done|].
  unfold default_rule in Hr. by rewrite Hr.
Qed.

(** C10: with no stack deployed and a listener that reports two or more
    rules, all of priority ["default"], [_get_max_priority] skips every
    rule and returns [None], and [calculate_rule_priority] raises the
    [TypeError] of [int(None)] instead of returning a priority. *)
Theorem all_default_rules_raise cf deploy_ctx stack_name cluster arn region rules :
  does_stack_exist cf stack_name = false ->
  attrs deploy_ctx !! "cluster_stack_name" = Some cluster ->
  get_export_value cf cluster "ListenerARN" = Ok arn ->
  truthy arn = true ->
  attrs deploy_ctx !! "region" = Some region ->
  describe_rules cf region arn = Some rules ->
  (2 <= length rules)%nat ->
  Forall default_rule rules ->
  _get_max_priority rules = Ok PNone
  ∧ calculate_rule_priority cf deploy_ctx stack_name = Raise TypeError.
Proof.
  intros Hstack Hcluster Harn Htruthy Hregion Hrules Hlen Hall.
  assert (Hmax : _get_max_priority rules = Ok PNone).
  { apply first_non_default_none. by apply sorted_reverse_Forall. }
  split; [done|].
  unfold calculate_rule_priority, _get_cluster_stack_export_value, getattr.
  rewrite Hstack, Hcluster, Harn, Htruthy, Hregion. simpl. rewrite Hrules.
  destruct rules as [|r [|r' rules']]; simpl in Hlen; [lia..|].
  by rewrite Hmax.
Qed.

Lemma all_default_rules_raise_witness :
  calculate_rule_priority
    (Samples.listener (Samples.rules_of [PrioStr "default"; PrioStr "default"]))
    Samples.in_cluster "prod-foo-api"
  = Raise TypeError.
Proof.
  eapply (all_default_rules_raise _ _ _ (PStr "prod-foo-cluster") _ (PStr "us-west-2")).
  - reflexivity.
  - reflexivity.
  - reflexivity.
  - reflexivity.
  - reflexivity.
  - reflexivity.
  - simpl. lia.
  - repeat constructor.
Defined.

(** The parts of C4 that the code does keep: the stored priority of an
    existing stack is returned as it is. *)
Lemma existing_stack_priority_reused cf deploy_ctx stack_name :
  does_stack_exist cf stack_name = true ->
  calculate_rule_priority cf deploy_ctx stack_name
  = Ok (get_existing_parameter_value cf stack_name "RulePriority").
Proof. intros H. unfold calculate_rule_priority. by rewrite H. Qed.

Lemma existing_stack_priority_reused_witness :
  calculate_rule_priority (Samples.deployed (PStr "12")) Samples.in_cluster "prod-foo-api"
  = Ok (PStr "12").
Proof.
  apply (existing_stack_priority_reused (Samples.deployed (PStr "12"))). reflexivity.
Defined.

(** On integer priorities the sort does bring the maximum to the front. *)
Lemma first_non_default_insert r rules :
  Design.int_or_default r ->
  Forall Design.int_or_default rules ->
  first_non_default rules = Ok (Design.rendered (Design.max_priority rules)) ->
  first_non_default (insert_desc r rules)
  = Ok (Design.rendered (Design.max_priority (r :: rules))).
Proof.
  destruct r as [p]. intros [Hp|[n Hp]]; unfold default_rule in *; cbn in Hp; subst p.
  - intros Hall Hrules. destruct rules as [|[[k|s]] rules']; cbn; try done.
    apply Forall_cons in Hall as [[Hs|[k Hs]] _]; [|done].
    unfold default_rule in Hs. cbn in Hs. injection Hs as ->. done.
  - induction 1 as [|[p] rules' [Hp|[k Hp]] Hrules' IH];
      unfold default_rule in *; try (cbn in Hp; subst p).
    + done.
    + cbn. intros Hfirst. rewrite (IH Hfirst). cbn.
      by destruct (Design.max_priority rules').
    + cbn. intros Hfirst. injection Hfirst as Hfirst.
      destruct (Design.max_priority rules') as [m'|] eqn:Hmax; cbn in Hfirst.
      * injection Hfirst as Hfirst. destruct (Z.ltb_spec n k); cbn; repeat f_equal; lia.
      * destruct (Z.ltb_spec n k); cbn; repeat f_equal; lia.
Qed.

Lemma get_max_priority_integers rules :
  Forall Design.int_or_default rules ->
  _get_max_priority rules = Ok (Design.rendered (Design.max_priority rules)).
Proof.
  unfold _get_max_priority, sorted_reverse.
  induction 1 as [|r rules' Hr Hrules' IH]; [done|]. cbn [foldr].
  assert (Hsorted : ∀ l, Forall Design.int_or_default l ->
            Design.max_priority (foldr insert_desc [] l) = Design.max_priority l).
  { clear. induction 1 as [|r l Hr Hl IHl]; [done|]. cbn [foldr].
    assert (Hins : ∀ l', Design.max_priority (insert_desc r l')
                         = Design.max_priority (r :: l')).
    { clear. induction l' as [|r' l' IH']; [done|]. cbn [insert_desc].
      destruct (key_lt _ _); [|done]. cbn. rewrite IH'. cbn.
      destruct (rule_priority r), (rule_priority r'), (Design.max_priority l');
        try done; f_equal; lia. }
    rewrite Hins. cbn. by rewrite IHl. }
  rewrite (first_non_default_insert r (foldr insert_desc [] rules')); try done.
  - cbn. by rewrite (Hsorted rules').
  - by apply sorted_reverse_Forall.
  - by rewrite (Hsorted rules').
Qed.

(** With no stack deployed and rules whose priorities are integers (or
    ["default"]), at least one of them an integer, the next priority is the
    largest integer plus one. *)
Lemma integer_priorities_next cf deploy_ctx stack_name cluster arn region rules m :
  does_stack_exist cf stack_name = false ->
  attrs deploy_ctx !! "cluster_stack_name" = Some cluster ->
  get_export_value cf cluster "ListenerARN" = Ok arn ->
  truthy arn = true ->
  attrs deploy_ctx !! "region" = Some region ->
  describe_rules cf region arn = Some rules ->
  Forall Design.int_or_default rules ->
  Design.max_priority rules = Some m ->
  calculate_rule_priority cf deploy_ctx stack_name = Ok (PStr (pretty (m + 1))).
Proof.
  intros Hstack Hcluster Harn Htruthy Hregion Hrules Hall Hmax.
  unfold calculate_rule_priority, _get_cluster_stack_export_value, getattr.
  rewrite Hstack, Hcluster, Harn, Htruthy, Hregion. cbn [mbind result_bind].
  rewrite Hrules. destruct rules as [|[p] rules']; [done|].
  rewrite (get_max_priority_integers _ Hall), Hmax.
  destruct rules' as [|r' rules'']; cbn; [|done].
  destruct p as [n|s]; [done|]. cbn in Hmax. done.
Qed.

Lemma integer_priorities_next_witness :
  calculate_rule_priority
    (Samples.listener
       (Samples.rules_of [PrioInt 9; PrioStr "default"; PrioInt 45; PrioInt 10]))
    Samples.in_cluster "prod-foo-api"
  = Ok (PStr "46").
Proof.
  apply (integer_priorities_next _ _ _ (PStr "prod-foo-cluster")
           (PStr "arn:aws:elasticloadbalancing:listener/app/a/b") (PStr "us-west-2")
           (Samples.rules_of [PrioInt 9; PrioStr "default"; PrioInt 45; PrioInt 10]) 45);
    try reflexivity.
  repeat (apply Forall_cons; split;
            [first [left; reflexivity | right; eexists; reflexivity]|]).
  apply Forall_nil_2.
Defined.

Example stored_priority_12 :
  calculate_rule_priority (Samples.deployed (PStr "12")) Samples.in_cluster "prod-foo-api"
  = Ok (PStr "12").
Proof. reflexivity. Qed.

Example no_rules_31 :
  calculate_rule_priority (Samples.listener []) Samples.in_cluster "prod-foo-api"
  = Ok (PStr "31").
Proof. reflexivity. Qed.

Example only_default_rule_31 :
  calculate_rule_priority (Samples.listener (Samples.rules_of [PrioStr "default"]))
    Samples.in_cluster "prod-foo-api"
  = Ok (PStr "31").
Proof. reflexivity. Qed.

Example max_45_gives_46 :
  calculate_rule_priority
    (Samples.listener (Samples.rules_of [PrioStr "10"; PrioStr "default"; PrioStr "45"]))
    Samples.in_cluster "prod-foo-api"
  = Ok (PStr "46").
Proof. reflexivity. Qed.

(** The sort is descending, so the ["default"] rules come first, not
    last; they are skipped, not compared. *)
Example default_sorts_first :
  sorted_reverse (Samples.rules_of [PrioInt 7; PrioStr "default"; PrioStr "45"])
  = Samples.rules_of [PrioStr "default"; PrioStr "45"; PrioInt 7].
Proof. reflexivity. Qed.

(** C4 fails on the code: the priorities the listener reports are
    strings, and the sort compares them as text.  With rules ["9"] and
    ["45"] the first rule of the descending order is ["9"], and the next
    priority is ["10"], not ["46"]. *)
Theorem string_priorities_compare_as_text :
  _get_max_priority (Samples.rules_of [PrioStr "9"; PrioStr "45"]) = Ok (PInt 9)
  ∧ calculate_rule_priority
      (Samples.listener (Samples.rules_of [PrioStr "9"; PrioStr "45"]))
      Samples.in_cluster "prod-foo-api"
    = Ok (PStr "10").
Proof. split; reflexivity. Qed.

End RulePriority.

(** ** Naming *)

Section Naming.

Implicit Types (self : DeployContext) (kwargs : gmap string PyVal) (s p q : string).

Lemma append_cons c s p : String c s +:+ p = String c (s +:+ p).
Proof. reflexivity. Qed.

Lemma append_nil_l s : "" +:+ s = s.
Proof. reflexivity. Qed.

Lemma append_nil_r s : s +:+ "" = s.
Proof. induction s as [|c s IH]; [done | by rewrite append_cons, IH]. Qed.

Lemma append_assoc s p q : (s +:+ p) +:+ q = s +:+ (p +:+ q).
Proof. induction s as [|c s IH]; [done | by rewrite !append_cons, IH]. Qed.

Lemma substring_prefix p q : substring 0 (String.length p) (p +:+ q) = p.
Proof.
  induction p as [|c p IH]; [by destruct q | by rewrite append_cons; cbn; f_equal].
Qed.

Lemma contains_app c p q : contains c (p +:+ String c q) = true.
Proof.
  induction p as [|d p IH]; [by rewrite append_nil_l; cbn; rewrite Ascii.eqb_refl|].
  rewrite append_cons. cbn. rewrite IH. apply orb_true_r.
Qed.

Lemma find_first c p q :
  contains c p = false -> find c (p +:+ String c q) = Z.of_nat (String.length p).
Proof.
  induction p as [|d p IH]; [by rewrite append_nil_l; cbn; rewrite Ascii.eqb_refl|].
  rewrite append_cons. cbn. intros [Hd Hp]%orb_false_elim. rewrite Hd, (IH Hp).
  destruct (Z.ltb_spec (Z.of_nat (String.length p)) 0); lia.
Qed.

(** The application name cut at its first hyphen. *)
Lemma cut_at_first_hyphen p q :
  contains "-" p = false ->
  slice_to (p +:+ String "-" q) (find "-" (p +:+ String "-" q)) = p.
Proof.
  intros Hp. rewrite (find_first _ _ _ Hp). unfold slice_to.
  destruct (Z.ltb_spec (Z.of_nat (String.length p)) 0); [lia|].
  rewrite Nat2Z.id. apply substring_prefix.
Qed.

(** [format] renders the segments of its template. *)
Lemma format_from_segments kwargs template : ∀ field segments,
  segments_from field template = Some segments ->
  format_from kwargs field template = render kwargs segments.
Proof.
  induction template as [|c rest IH]; intros [name|] segments; simpl.
  - done.
  - by intros [= <-].
  - destruct (Ascii.eqb c "}").
    + destruct (segments_from None rest) as [segments'|] eqn:Hrest; [|done].
      intros [= <-]. simpl. by rewrite (IH None segments').
    + apply IH.
  - destruct (Ascii.eqb c "{"); [apply IH|].
    destruct (Ascii.eqb c "}"); [done|].
    destruct (segments_from None rest) as [segments'|] eqn:Hrest; [|done].
    intros [= <-]. simpl. by rewrite (IH None segments').
Qed.

Lemma format_segments kwargs template segments :
  segments_from None template = Some segments ->
  format template kwargs = render kwargs segments.
Proof. apply format_from_segments. Qed.

Lemma evaluate_templates_step variable template value variables self :
  format template (vars self) = Ok value ->
  evaluate_templates ((variable, template) :: variables) self
  = evaluate_templates variables (set_variable variable (PStr value) self).
Proof. intros H. simpl. by rewrite H. Qed.

(** One pass of the loop, on a context whose entries are known. *)
Ltac entries :=
  cbn [vars attrs service_definition set_variable set_attr setitem foldl built_in];
  repeat match goal with
    | |- context [lower ?name] =>
        let name' := eval vm_compute in (lower name) in
        change (lower name) with name'
    end;
  repeat (rewrite lookup_insert_eq || rewrite lookup_insert_ne by done).

Ltac evaluate_template :=
  erewrite evaluate_templates_step;
  [| erewrite format_segments by (vm_compute; reflexivity);
     cbn [render]; entries;
     repeat match goal with H : _ !! _ = Some _ |- _ => rewrite H end;
     cbn [fmap result_fmap str]; rewrite ?append_nil_r; reflexivity ].

(** The loop body, run over the table of templates on a context that
    holds the four names and the two entries set before the loop: the
    names it would derive. *)
Lemma template_loop_names self e a r region vpcapp date :
  vars self !! "ENVIRONMENT" = Some (PStr e) ->
  vars self !! "APPLICATION" = Some (PStr a) ->
  vars self !! "ROLE" = Some (PStr r) ->
  vars self !! "REGION" = Some region ->
  vars self !! "VPCAPP" = Some (PStr vpcapp) ->
  vars self !! "DEPLOY_DATE" = Some (PStr date) ->
  let stack := e +:+ "-" +:+ a +:+ "-" +:+ r in
  ∃ ctx, evaluate_templates env_variables self = Ok ctx
    ∧ vars ctx !! "VPCAPP" = Some (PStr vpcapp)
    ∧ vars ctx !! "STACK_NAME" = Some (PStr stack)
    ∧ vars ctx !! "EnvName" = Some (PStr stack)
    ∧ vars ctx !! "ECS_SERVICE_STACK_NAME" = Some (PStr stack)
    ∧ vars ctx !! "RESOURCE_STACK_NAME" = Some (PStr (stack +:+ "-resources"))
    ∧ attrs ctx !! "stack_name" = Some (PStr stack)
    ∧ attrs ctx !! "resource_stack_name" = Some (PStr (stack +:+ "-resources")).
Proof.
  intros He Ha Hr Hregion Hvpcapp Hdate stack. unfold env_variables.
  do 14 evaluate_template. cbn [evaluate_templates].
  eexists. split; [reflexivity|].
  assert (Hres : e +:+ String "-" (a +:+ String "-" (r +:+ "-resources"))
                 = stack +:+ "-resources").
  { unfold stack. by rewrite !append_assoc. }
  entries. by rewrite Hres.
Qed.

Lemma generate_modification_stack_name_appends self e a r m :
  vars self !! "ENVIRONMENT" = Some (PStr e) ->
  vars self !! "APPLICATION" = Some (PStr a) ->
  vars self !! "ROLE" = Some (PStr r) ->
  vars self !! "mod_name" = None ->
  generate_modification_stack_name self (PStr m)
  = Ok ((e +:+ "-" +:+ a +:+ "-" +:+ r) +:+ "-" +:+ m).
Proof.
  intros He Ha Hr Hmod. unfold generate_modification_stack_name.
  rewrite Hmod, bool_decide_eq_false_2 by (by intros [? ?]).
  erewrite format_segments by (vm_compute; reflexivity).
  cbn [render]. entries. rewrite He, Ha, Hr.
  cbn [fmap result_fmap str]. by rewrite append_nil_r, !append_assoc.
Qed.

Lemma initialize_never_returns now self ctx :
  _initialize_environment_variables now self ≠ Ok ctx.
Proof.
  unfold _initialize_environment_variables.
  by destruct (vars self !! APPLICATION) as [[| |a]|].
Qed.

(** C7, against the code: no name is derived, because
    [_initialize_environment_variables] never returns.  Without an
    APPLICATION it stops at a [KeyError], and at a [TypeError] when
    APPLICATION is a number or [None]; with a string APPLICATION it sets
    VPCAPP and DEPLOY_DATE and then fails at [env_variables.iteritems()]
    with an [AttributeError], before any template is evaluated.  So it
    does on the entries that [create_deploy_context("foo", "api", "prod")]
    hands it. *)
Theorem initialisation_stops_at_iteritems now self :
  (∀ ctx, _initialize_environment_variables now self ≠ Ok ctx)
  ∧ (vars self !! "APPLICATION" = None ->
     _initialize_environment_variables now self = Raise (KeyError "APPLICATION"))
  ∧ (∀ a, vars self !! "APPLICATION" = Some (PStr a) ->
       _initialize_environment_variables now self = Raise (AttributeError "iteritems"))
  ∧ _initialize_environment_variables now Samples.prod_foo_api_entries
    = Raise (AttributeError "iteritems").
Proof.
  split; [intros ctx; apply initialize_never_returns|].
  unfold _initialize_environment_variables, APPLICATION.
  split; [by intros ->|]. split; [by intros a ->|]. done.
Qed.

End Naming.


(** ** Expansion of variable references *)

Section Expandvars.

Implicit Types (self : DeployContext) (default : PyVal) (s pre name rest : string).

Lemma sub_escaped_irrelevant self default s : ∀ skip e1 e2,
  sub self default false skip e1 s = sub self default false skip e2 s.
Proof. induction s as [|c s IH]; intros [|k] e1 e2; simpl; done. Qed.

(** Text without a dollar sign is copied. *)
Lemma sub_literal self default pre rest : ∀ escaped,
  contains "$" pre = false ->
  sub self default false O escaped (pre +:+ rest)
  = String.append pre <$> sub self default false O false rest.
Proof.
  induction pre as [|c pre IH]; intros escaped Hpre.
  - rewrite append_nil_l, (sub_escaped_irrelevant _ _ _ _ escaped false).
    by destruct (sub _ _ _ _ _ rest).
  - cbn in Hpre. apply orb_false_elim in Hpre as [Hc Hpre].
    rewrite append_cons. cbn [sub]. rewrite Hc. cbn [andb].
    rewrite (IH _ Hpre). by destruct (sub _ _ _ _ _ rest).
Qed.

(** The scan resumes after the characters of a match. *)
Lemma sub_skip self default s rest : ∀ escaped,
  sub self default false (String.length s) escaped (s +:+ rest)
  = sub self default false O false rest.
Proof.
  induction s as [|c s IH]; intros escaped.
  - rewrite append_nil_l. apply sub_escaped_irrelevant.
  - rewrite append_cons. cbn [sub String.length]. apply IH.
Qed.

Lemma close_index_first name rest :
  contains "}" name = false ->
  close_index (name +:+ String "}" rest) = Some (String.length name).
Proof.
  induction name as [|c name IH]; [done|].
  rewrite append_cons. cbn. intros [Hc Hname]%orb_false_elim.
  by rewrite Hc, (IH Hname).
Qed.

Lemma word_length_all name rest :
  word name = true -> continues_word rest = false ->
  word_length (name +:+ rest) = String.length name.
Proof.
  intros Hname Hrest. induction name as [|c name IH].
  - rewrite append_nil_l. destruct rest as [|c rest]; [done|].
    cbn in *. by rewrite Hrest.
  - rewrite append_cons. cbn in *. apply andb_true_iff in Hname as [-> Hname].
    by rewrite (IH Hname).
Qed.

Lemma match_var_braced name rest :
  contains "}" name = false ->
  match_var (String "{" (name +:+ String "}" rest))
  = Some ("{" +:+ name +:+ "}", Some name, S (S (String.length name))).
Proof.
  intros Hname. unfold match_var.
  change (word_length (String "{" (name +:+ String "}" rest))) with O.
  cbn match. rewrite (close_index_first _ _ Hname), substring_prefix. done.
Qed.

Lemma match_var_bare c name rest :
  word (String c name) = true -> continues_word rest = false ->
  match_var (String c name +:+ rest)
  = Some (String c name, None, String.length (String c name)).
Proof.
  intros Hname Hrest. unfold match_var.
  rewrite (word_length_all _ _ Hname Hrest). cbn [String.length].
  by rewrite <- (substring_prefix (String c name) rest) at 2.
Qed.

Lemma sub_skip_closing self default s c rest : ∀ escaped,
  sub self default false (S (String.length s)) escaped (s +:+ String c rest)
  = sub self default false O false rest.
Proof.
  induction s as [|d s IH]; intros escaped.
  - rewrite append_nil_l. cbn [sub String.length]. by destruct rest.
  - rewrite append_cons. cbn [sub String.length]. apply IH.
Qed.

Lemma spliced_replace_var self default group1 group2 :
  spliced (replace_var self default group1 group2)
  = replacement self default
      (match group2 with Some (String _ _ as n) => n | _ => group1 end)
      ("$" +:+ group1).
Proof.
  unfold replace_var, get, replacement.
  destruct (vars self !! _) as [[| |]|]; [done..|]. by destruct default.
Qed.

Lemma ends_word_continues rest : ends_word rest = true -> continues_word rest = false.
Proof.
  destruct rest as [|c rest]; [done|]. cbn. by destruct (is_word c).
Qed.

Lemma close_index_none inner : contains "}" inner = false -> close_index inner = None.
Proof.
  induction inner as [|c inner IH]; [done|].
  cbn. intros [-> Hinner]%orb_false_elim. by rewrite IH.
Qed.

(** A dollar sign followed by [rest] starts no reference. *)
Lemma match_var_none rest :
  continues_word rest = false ->
  (∀ inner, rest = String "{" inner -> contains "}" inner = false) ->
  match_var rest = None.
Proof.
  intros Hword Hbrace. unfold match_var.
  destruct rest as [|c rest]; [done|]. cbn in Hword. cbn [word_length]. rewrite Hword.
  destruct (ascii_dec c "{") as [->|Hc].
  - by rewrite (close_index_none rest (Hbrace rest eq_refl)).
  - destruct c as [[] [] [] [] [] [] [] []]; done.
Qed.

(** C9, as stated, has every resolved name replaced by the context's
    value.  A name resolved to a number, as a deployment parameter of
    the definition file can be, is not replaced: the call raises a
    [TypeError]. *)
Lemma expandvars_number_is_type_error :
  vars (Samples.entries {[ "TASK_CPU" := PInt 256 ]}) !! "TASK_CPU" = Some (PInt 256)
  ∧ _expandvars (Samples.entries {[ "TASK_CPU" := PInt 256 ]}) "cpu: ${TASK_CPU}" PNone false
    = Raise TypeError.
Proof. split; vm_compute; reflexivity. Qed.

(** C9, amended: in any text made of plain text, occurrences [${name}]
    and [$name], and dollar signs that start no reference, [_expandvars]
    copies the plain text and those dollar signs, and replaces each
    occurrence: by the context's value of the name when that is a string,
    and by nothing when it is [None]; when the name is unresolved, by the
    occurrence as written if there is no default, and by the default if
    there is one.  A number, as the value or as the default used, makes
    the call raise a [TypeError]. *)
Theorem expandvars_substitutes self default pieces :
  well_formed pieces ->
  _expandvars self (text_of pieces) default false = expansion self default pieces.
Proof.
  unfold _expandvars. induction pieces as [|p pieces IH]; [done|].
  intros [Hshape Hpieces]. specialize (IH Hpieces). cbn [text_of expansion].
  destruct p as [s|name|name|]; cbn [shaped written] in *.
  - rewrite (sub_literal _ _ _ _ _ Hshape), IH. done.
  - rewrite !append_assoc.
    change ("${" +:+ name +:+ "}" +:+ text_of pieces)
      with (String "$" (String "{" (name +:+ String "}" (text_of pieces)))).
    cbn [sub]. cbn [Ascii.eqb Bool.eqb andb negb].
    rewrite (match_var_braced _ _ Hshape), spliced_replace_var.
    replace (expansion_of self default (Braced name))
      with (replacement self default
              (match Some name with Some (String _ _ as n) => n | _ => "{" +:+ name +:+ "}" end)
              ("$" +:+ "{" +:+ name +:+ "}"))
      by (by destruct name).
    destruct (replacement _ _ _ _) as [out|e]; [|done].
    cbn [mbind result_bind]. by rewrite sub_skip_closing, IH.
  - destruct Hshape as (Hname & Hword & Hends).
    rewrite append_assoc.
    change ("$" +:+ name +:+ text_of pieces) with (String "$" (name +:+ text_of pieces)).
    cbn [sub]. cbn [Ascii.eqb Bool.eqb andb negb].
    destruct name as [|c name]; [done|].
    rewrite (match_var_bare _ _ _ Hword (ends_word_continues _ Hends)), spliced_replace_var.
    cbn [expansion_of written].
    destruct (replacement _ _ _ _) as [out|e]; [|done].
    cbn [mbind result_bind]. by rewrite sub_skip, IH.
  - destruct Hshape as [Hends Hbrace].
    change ("$" +:+ text_of pieces) with (String "$" (text_of pieces)).
    cbn [sub]. cbn [Ascii.eqb Bool.eqb andb negb].
    rewrite (match_var_none _ (ends_word_continues _ Hends) Hbrace), IH.
    by destruct (expansion self default pieces).
Qed.

Lemma expandvars_substitutes_witness :
  _expandvars (Samples.entries ∅) "hello ${NAME}" PNone false = Ok "hello ${NAME}"
  ∧ _expandvars (Samples.entries ∅) "hello ${NAME}" (PStr "world") false = Ok "hello world"
  ∧ _expandvars Samples.named_bob "hello ${NAME}" PNone false = Ok "hello bob"
  ∧ _expandvars Samples.named_bob "$NAME paid $ 5 to $NAME" PNone false
    = Ok "bob paid $ 5 to bob".
Proof.
  assert (H1 : expansion (Samples.entries ∅) PNone [Text "hello "; Braced "NAME"]
               = Ok "hello ${NAME}") by (vm_compute; reflexivity).
  assert (H2 : expansion (Samples.entries ∅) (PStr "world") [Text "hello "; Braced "NAME"]
               = Ok "hello world") by (vm_compute; reflexivity).
  assert (H3 : expansion Samples.named_bob PNone [Text "hello "; Braced "NAME"]
               = Ok "hello bob") by (vm_compute; reflexivity).
  assert (H4 : expansion Samples.named_bob PNone
                 [Bare "NAME"; Text " paid "; Dollar; Text " 5 to "; Bare "NAME"]
               = Ok "bob paid $ 5 to bob") by (vm_compute; reflexivity).
  split; [|split; [|split]].
  - rewrite <- H1.
    apply (expandvars_substitutes (Samples.entries ∅) PNone
             [Text "hello "; Braced "NAME"]).
    split; [reflexivity | split; [reflexivity | exact I]].
  - rewrite <- H2.
    apply (expandvars_substitutes (Samples.entries ∅) (PStr "world")
             [Text "hello "; Braced "NAME"]).
    split; [reflexivity | split; [reflexivity | exact I]].
  - rewrite <- H3.
    apply (expandvars_substitutes Samples.named_bob PNone
             [Text "hello "; Braced "NAME"]).
    split; [reflexivity | split; [reflexivity | exact I]].
  - rewrite <- H4.
    apply (expandvars_substitutes Samples.named_bob PNone
             [Bare "NAME"; Text " paid "; Dollar; Text " 5 to "; Bare "NAME"]).
    split; [split; [discriminate | split; reflexivity]|].
    split; [reflexivity|].
    split; [split; [reflexivity | intros inner Hinner; discriminate Hinner]|].
    split; [reflexivity|].
    split; [split; [discriminate | split; reflexivity] | exact I].
Defined.

(** The same, by evaluation, with more than one occurrence and with
    escapes skipped. *)
Example expandvars_examples :
  _expandvars Samples.named_bob "$NAME and ${NAME}, not ${OTHER} or $" PNone false
  = Ok "bob and bob, not ${OTHER} or $"
  ∧ _expandvars Samples.named_bob "\$NAME is $NAME" PNone true = Ok "\$NAME is bob"
  ∧ _expandvars Samples.named_bob "\$NAME is $NAME" PNone false = Ok "\bob is bob".
Proof. repeat split; vm_compute; reflexivity. Qed.

End Expandvars.


(** ** The definition file *)

Section DefinitionFile.

Implicit Types (doc base specific : gmap string Json) (environment : string).

Lemma valid_members doc :
  Schema.valid (JObj doc) = true ->
  (∃ a r t, doc !! _APPLICATION = Some a ∧ doc !! _ROLE = Some r
            ∧ doc !! _SERVICE_TYPE = Some t)
  ∧ ∃ base, doc !! _DEPLOYMENT_PARAMETERS = Some (JObj base).
Proof.
  unfold Schema.valid. rewrite !andb_true_iff. unfold Schema.property, Schema.required.
  cbn [forallb]. rewrite !andb_true_iff, !bool_decide_eq_true.
  intros ((((((((_ & _) & _) & _) & Hparams) & _) & _) & _)
          & [a Ha] & [r Hr] & [base Hbase] & [t Ht] & _).
  split; [by eauto 10|]. rewrite Hbase in Hparams |- *.
  destruct base; try done. eauto.
Qed.

(** C8: a definition file that passes the schema is parsed.  When it has an
    object under [<environment>-deployment-parameters], each key of the
    resulting deployment parameters has the environment's value if the
    environment gives it one and the base value otherwise; without that
    member they are the base parameters.  [service_modifications] is the
    member ['service-modifications'] when present and the empty list
    otherwise. *)
Theorem init_merges_parameters artifact_directory environment doc :
  Schema.valid (JObj doc) = true ->
  ∃ base, doc !! _DEPLOYMENT_PARAMETERS = Some (JObj base)
    ∧ (∀ specific,
         doc !! (environment +:+ "-deployment-parameters") = Some (JObj specific) ->
         ∃ sd, __init__ artifact_directory environment (Some (JObj doc)) = Ok sd
           ∧ (∀ key, deployment_parameters sd !! key
                     = match specific !! key with
                       | Some value => Some value
                       | None => base !! key
                       end)
           ∧ service_modifications sd
             = match doc !! _MODIFICATIONS with Some mods => mods | None => JArr [] end)
    ∧ (doc !! (environment +:+ "-deployment-parameters") = None ->
         ∃ sd, __init__ artifact_directory environment (Some (JObj doc)) = Ok sd
           ∧ deployment_parameters sd = base
           ∧ service_modifications sd
             = match doc !! _MODIFICATIONS with Some mods => mods | None => JArr [] end).
Proof.
  intros Hvalid.
  destruct (valid_members doc Hvalid) as [(a & r & t & Ha & Hr & Ht) [base Hbase]].
  exists base. split; [done|].
  unfold __init__, member. rewrite Hvalid, Ha, Hr, Ht, Hbase. cbn [negb mbind result_bind].
  split.
  - intros specific ->. cbn [update mbind result_bind]. eexists. split; [done|].
    split; [|done]. intros key. cbn [deployment_parameters].
    rewrite lookup_union. by destruct (specific !! key), (base !! key).
  - intros ->. eexists. by split.
Qed.

Lemma init_merges_parameters_witness :
  ∃ sd, __init__ "/srv/foo" "prod" (Some (JObj Samples.service_json)) = Ok sd
    ∧ deployment_parameters sd !! "TASK_CPU" = Some (JNum 1024)
    ∧ deployment_parameters sd !! "TASK_SOFT_MEMORY" = Some (JStr "512")
    ∧ deployment_parameters sd !! "DESIRED_COUNT" = Some (JNum 3)
    ∧ service_modifications sd = JArr [JStr "cache"].
Proof.
  destruct (init_merges_parameters "/srv/foo" "prod" Samples.service_json eq_refl)
    as (base & Hbase & Hprod & _).
  injection Hbase as <-.
  destruct (Hprod {[ "TASK_CPU" := JNum 1024; "DESIRED_COUNT" := JNum 3 ]} eq_refl)
    as (sd & Hsd & Hparams & Hmods).
  exists sd. split; [exact Hsd|]. rewrite !Hparams. split; [reflexivity|].
  split; [reflexivity|]. split; [reflexivity | exact Hmods].
Defined.

Example no_modifications_member :
  service_modifications
    <$> __init__ "/srv/foo" "ci" (Some (JObj (delete "service-modifications" Samples.service_json)))
  = Ok (JArr []).
Proof. vm_compute. reflexivity. Qed.

End DefinitionFile.

(** ** Execution plans *)

Section Plans.

Context {Template Deploy : Type}.
Variable has_monitor_definition : Template -> bool.
Variable monitor_execution_plan : Template -> DeployContext -> list (Step Template Deploy).

Implicit Types (sd : ServiceDefinition) (template_manager : TemplateManager Template)
  (self ctx : DeployContext) (names : list string).

Lemma modification_steps_plan sd template_manager ctx stacks templates names :
  (∀ name, name ∈ names ->
     generate_modification_stack_name ctx (PStr name) = Ok (stacks name)) ->
  (∀ name, name ∈ names ->
     get_known_service_modification template_manager (service_type sd) (JStr name)
     = Some (templates name)) ->
  modification_steps has_monitor_definition monitor_execution_plan
    sd template_manager ctx (JStr <$> names)
  = Ok (modification_plan has_monitor_definition monitor_execution_plan
          ctx stacks templates names).
Proof.
  induction names as [|name names IH]; intros Hstacks Hknown; [done|].
  cbn [fmap list_fmap modification_steps as_value mbind result_bind].
  rewrite (Hstacks name) by left. cbn [mbind result_bind].
  rewrite (Hknown name) by left. cbn [mbind result_bind resolved].
  rewrite IH by (intros; (apply Hstacks || apply Hknown); by right). done.
Qed.

(** C1, amended.  Take a definition whose modifications are a list of
    names, a context that has the attribute [stack_name], and also
    [resource_stack_name] when the resource template is present, and for
    which [generate_modification_stack_name] returns on each declared
    name, and a lookup that resolves the main template and every
    modification's template.  Then the plan is the main-stack step,
    named by the attribute [stack_name]; then the main template's monitor
    sub-plan when it declares monitoring; then the shared-resource step,
    named by the attribute [resource_stack_name], when the resource
    template is present, whose absence is not an error; then one step
    per declared modification in declaration order, named by
    [generate_modification_stack_name], each immediately followed by its
    monitor sub-plan when its template declares monitoring. *)
Theorem execution_plan_order sd template_manager ctx stack resource_stack
    main stacks templates names :
  attrs ctx !! "stack_name" = Some stack ->
  (is_Some (get_resource_service template_manager (artifact_directory sd)) ->
   attrs ctx !! "resource_stack_name" = Some resource_stack) ->
  get_known_service template_manager (service_type sd) = Some main ->
  service_modifications sd = JArr (JStr <$> names) ->
  (∀ name, name ∈ names ->
     generate_modification_stack_name ctx (PStr name) = Ok (stacks name)) ->
  (∀ name, name ∈ names ->
     get_known_service_modification template_manager (service_type sd) (JStr name)
     = Some (templates name)) ->
  generate_execution_plan has_monitor_definition monitor_execution_plan
    sd template_manager ctx
  = Ok (built_plan has_monitor_definition monitor_execution_plan ctx
          stack resource_stack main
          (get_resource_service template_manager (artifact_directory sd))
          stacks templates names).
Proof.
  intros Hstack Hresource Hmain Hmods Hstacks Hknown.
  unfold generate_execution_plan, getattr, built_plan, resource_plan.
  rewrite Hstack, Hmain, Hmods. cbn [mbind result_bind resolved iterate].
  rewrite (modification_steps_plan sd template_manager ctx stacks templates names) by done.
  destruct (get_resource_service _ _) as [resource|].
  - rewrite Hresource by done. cbn [mbind result_bind]. by rewrite <- !app_assoc.
  - cbn [mbind result_bind]. by rewrite <- !app_assoc.
Qed.

(** C2, amended.  [get_execution_plan] never returns a plan.  On a context
    with a service definition it calls [generate_execution_plan] with the
    template manager alone, one argument short, which is a [TypeError];
    on a context without one (only [_initialize_artifact_directory] sets
    it) the attribute lookup fails first. *)
Theorem get_execution_plan_never_returns template_manager self :
  (∀ plan, get_execution_plan has_monitor_definition monitor_execution_plan
             template_manager self ≠ Ok plan)
  ∧ (∀ sd, service_definition self = Some sd ->
       get_execution_plan has_monitor_definition monitor_execution_plan
         template_manager self = Raise TypeError)
  ∧ (service_definition self = None ->
       get_execution_plan has_monitor_definition monitor_execution_plan
         template_manager self = Raise (AttributeError "service_definition")).
Proof.
  unfold get_execution_plan. destruct (service_definition self) as [sd|]; simpl.
  - split; [done|]. split; [done|]. done.
  - split; [done|]. split; [done|]. done.
Qed.

End Plans.

Section PlanSamples.

(** Sample runs: templates are named by strings, [Samples.monitored]
    tells which declare monitoring. *)
Abbreviation plan_of has_monitor sd :=
  (generate_execution_plan has_monitor Samples.monitor sd Samples.known
     Samples.prod_foo_api_ctx).

(** C1 as worded puts the resource step second whenever it is present.
    With a main template that declares monitoring the monitor's step is
    second and the resource step third. *)
Lemma resource_step_not_second :
  let ctx := Samples.prod_foo_api_ctx in
  plan_of Samples.monitored (Samples.definition "monitored" [])
  = Ok [ CloudFormationDeploy (PStr "prod-foo-api") "monitored" ctx;
         MonitorDeploy "monitored-monitor";
         CloudFormationDeploy (PStr "prod-foo-api-resources") "aws-resources.template" ctx ]
  ∧ plan_of Samples.monitored (Samples.definition "monitored" [])
    ≠ Ok (guaranteed_plan Samples.monitored Samples.monitor ctx
            (PStr "prod-foo-api") (PStr "prod-foo-api-resources")
            "monitored" (Some "aws-resources.template")
            Samples.prod_foo_api_stacks id []).
Proof.
  intros ctx. assert (H : plan_of Samples.monitored (Samples.definition "monitored" [])
    = Ok [ CloudFormationDeploy (PStr "prod-foo-api") "monitored" ctx;
           MonitorDeploy "monitored-monitor";
           CloudFormationDeploy (PStr "prod-foo-api-resources") "aws-resources.template" ctx ]).
  { vm_compute. reflexivity. }
  split; [exact H|]. rewrite H. unfold guaranteed_plan. simpl. discriminate.
Qed.

(** One modification ["cache"], a resource template and no monitors:
    exactly three steps, main, resource, modification. *)
Lemma execution_plan_order_witness :
  let ctx := Samples.prod_foo_api_ctx in
  plan_of (fun _ => false) (Samples.definition "cluster" ["cache"])
  = Ok [ CloudFormationDeploy (PStr "prod-foo-api") "cluster" ctx;
         CloudFormationDeploy (PStr "prod-foo-api-resources") "aws-resources.template" ctx;
         CloudFormationDeploy (PStr "prod-foo-api-cache") "cache" ctx ].
Proof.
  intros ctx.
  assert (Hstack : attrs ctx !! "stack_name" = Some (PStr "prod-foo-api"))
    by (vm_compute; reflexivity).
  assert (Hresource : attrs ctx !! "resource_stack_name"
                      = Some (PStr "prod-foo-api-resources"))
    by (vm_compute; reflexivity).
  assert (Hstacks : ∀ name, name ∈ ["cache"] ->
            generate_modification_stack_name ctx (PStr name)
            = Ok (Samples.prod_foo_api_stacks name)).
  { intros name Hname. apply list_elem_of_singleton in Hname as ->.
    vm_compute. reflexivity. }
  assert (Hknown : ∀ name, name ∈ ["cache"] ->
            get_known_service_modification Samples.known
              (service_type (Samples.definition "cluster" ["cache"])) (JStr name)
            = Some (id name)).
  { intros name Hname. apply list_elem_of_singleton in Hname as ->. reflexivity. }
  exact (execution_plan_order (fun _ => false) Samples.monitor
           (Samples.definition "cluster" ["cache"]) Samples.known ctx
           (PStr "prod-foo-api") (PStr "prod-foo-api-resources")
           "cluster" Samples.prod_foo_api_stacks id ["cache"]
           Hstack (fun _ => Hresource) eq_refl eq_refl Hstacks Hknown).
Defined.

(** C2, as stated, makes every failure the arity error.  A context that
    was not given an artifact directory has no service definition, and
    there the failure is the attribute lookup. *)
Lemma get_execution_plan_attribute_error :
  service_definition Samples.prod_foo_api_ctx = None
  ∧ get_execution_plan Samples.monitored Samples.monitor Samples.known
      Samples.prod_foo_api_ctx
    ≠ Raise TypeError.
Proof. split; [vm_compute; reflexivity | vm_compute; discriminate]. Qed.

Lemma get_execution_plan_never_returns_witness :
  let self := {| vars := vars Samples.prod_foo_api_ctx;
                 attrs := attrs Samples.prod_foo_api_ctx;
                 service_definition := Some (Samples.definition "cluster" ["cache"]) |} in
  get_execution_plan Samples.monitored Samples.monitor Samples.known self
  = Raise TypeError.
Proof.
  intros self.
  destruct (get_execution_plan_never_returns Samples.monitored Samples.monitor
              Samples.known self) as (_ & Harity & _).
  apply (Harity (Samples.definition "cluster" ["cache"])). reflexivity.
Defined.

End PlanSamples.

(** * Further properties *)

(** ** Fargate resources: what a successful transform guarantees *)

Section FargateGuarantees.

Implicit Types (deploy_ctx : DeployContext) (v t n : Z).

#[local] Arguments str_in : simpl never.

Lemma get_valid_fargate_cpu_fixed t :
  t ∈ Design.cpu_tiers -> _get_valid_fargate_cpu t = t.
Proof.
  unfold Design.cpu_tiers. intros Ht. set_unfold in Ht.
  destruct Ht as [-> | [-> | [-> | [-> | [-> | []]]]]]; reflexivity.
Qed.

Lemma transform_fargate_cpu_inv deploy_ctx request r :
  transform_fargate_cpu deploy_ctx request = Ok r ->
  (_using_fargate deploy_ctx = false ∧ r = PNone)
  ∨ (_using_fargate deploy_ctx = true
     ∧ ∃ v, request = PInt v ∧ r = PInt (_get_valid_fargate_cpu v)
            ∧ _validate_fargate_resource_allocation r PNone deploy_ctx = Ok tt).
Proof.
  unfold transform_fargate_cpu. destruct (_using_fargate deploy_ctx).
  - destruct request as [|v|s]; try done. cbn zeta.
    destruct (_validate_fargate_resource_allocation _ _ _) as [[]|e] eqn:Hv; [|done].
    intros [= <-]. right. split; [done|]. by exists v.
  - intros [= <-]. by left.
Qed.

Lemma transform_fargate_memory_inv deploy_ctx request r :
  transform_fargate_memory deploy_ctx request = Ok r ->
  (_using_fargate deploy_ctx = false ∧ r = PNone)
  ∨ (_using_fargate deploy_ctx = true
     ∧ requested_memory request = Ok r
     ∧ _validate_fargate_resource_allocation PNone r deploy_ctx = Ok tt).
Proof.
  unfold transform_fargate_memory. destruct (_using_fargate deploy_ctx).
  - destruct (requested_memory request) as [memory|e]; [|done]. cbn [mbind result_bind].
    destruct (_validate_fargate_resource_allocation _ _ _) as [[]|e] eqn:Hv; [|done].
    intros [= <-]. right. by split.
  - intros [= <-]. by left.
Qed.

(** X3: both transforms are idempotent: giving a transform the value it
    returned, in the same context, returns that value again. *)
Theorem transforms_idempotent deploy_ctx request r :
  (transform_fargate_cpu deploy_ctx request = Ok r ->
   transform_fargate_cpu deploy_ctx r = Ok r)
  ∧ (transform_fargate_memory deploy_ctx request = Ok r ->
     transform_fargate_memory deploy_ctx r = Ok r).
Proof.
  split.
  - intros [[Hoff ->]|(Hon & v & -> & -> & Hvalid)]%transform_fargate_cpu_inv;
      unfold transform_fargate_cpu.
    + by rewrite Hoff.
    + rewrite Hon. cbn zeta.
      rewrite (get_valid_fargate_cpu_fixed (_get_valid_fargate_cpu v))
        by apply get_valid_fargate_cpu_snaps.
      by rewrite Hvalid.
  - intros [[Hoff ->]|(Hon & Hreq & Hvalid)]%transform_fargate_memory_inv;
      unfold transform_fargate_memory.
    + by rewrite Hoff.
    + rewrite Hon.
      destruct (requested_memory_decimal _ _ Hreq) as (n & -> & Hn).
      assert (Hagain : requested_memory (PStr (pretty n)) = Ok (PStr (pretty n))).
      { unfold requested_memory. by apply memories_valid, str_in_elem in Hn as ->. }
      rewrite Hagain. cbn [mbind result_bind]. by rewrite Hvalid.
Qed.

Lemma transforms_idempotent_witness :
  transform_fargate_cpu (Samples.fargate_memory "1024") (PInt 256) = Ok (PInt 256)
  ∧ transform_fargate_memory (Samples.fargate_cpu 512) (PStr "3072") = Ok (PStr "3072").
Proof.
  split.
  - destruct (transforms_idempotent (Samples.fargate_memory "1024") (PInt 200) (PInt 256))
      as [Hcpu _].
    apply Hcpu. vm_compute. reflexivity.
  - destruct (transforms_idempotent (Samples.fargate_cpu 512) (PInt 2050) (PStr "3072"))
      as [_ Hmem].
    apply Hmem. vm_compute. reflexivity.
Defined.

(** X4: a transform never returns a value outside the table: the cpu is
    [None] or one of the five tiers, the memory is [None] or the decimal
    string of a valid memory. *)
Theorem transforms_stay_in_table deploy_ctx request r :
  (transform_fargate_cpu deploy_ctx request = Ok r ->
   r = PNone ∨ ∃ t, t ∈ Design.cpu_tiers ∧ r = PInt t)
  ∧ (transform_fargate_memory deploy_ctx request = Ok r ->
     r = PNone ∨ ∃ n, Design.valid_memory n ∧ r = PStr (pretty n)).
Proof.
  split.
  - intros [[_ ->]|(_ & v & -> & -> & _)]%transform_fargate_cpu_inv; [by left|].
    right. eexists. split; [apply get_valid_fargate_cpu_snaps | done].
  - intros [[_ ->]|(_ & Hreq & _)]%transform_fargate_memory_inv; [by left|].
    right. destruct (requested_memory_decimal _ _ Hreq) as (n & -> & Hn). eauto.
Qed.

Lemma transforms_stay_in_table_witness :
  (PInt 4096 = PNone ∨ ∃ t, t ∈ Design.cpu_tiers ∧ PInt 4096 = PInt t)
  ∧ (PStr "30720" = PNone ∨ ∃ n, Design.valid_memory n ∧ PStr "30720" = PStr (pretty n)).
Proof.
  split.
  - destruct (transforms_stay_in_table Samples.fargate (PInt 9000) (PInt 4096)) as [Hcpu _].
    apply Hcpu. vm_compute. reflexivity.
  - destruct (transforms_stay_in_table Samples.fargate (PInt 40000) (PStr "30720"))
      as [_ Hmem].
    apply Hmem. vm_compute. reflexivity.
Defined.

(** X5: a transform that succeeds leaves no known pair outside the table:
    when the context holds a valid memory (a cpu tier), the cpu (the
    memory) that was returned goes with it. *)
Theorem successful_transform_is_compatible deploy_ctx request :
  (∀ t n, transform_fargate_cpu deploy_ctx request = Ok (PInt t) ->
          vars deploy_ctx !! "TASK_SOFT_MEMORY" = Some (PStr (pretty n)) ->
          Design.valid_memory n ->
          Design.compatible t n)
  ∧ (∀ n c, transform_fargate_memory deploy_ctx request = Ok (PStr (pretty n)) ->
            vars deploy_ctx !! "TASK_CPU" = Some (PInt c) ->
            c ∈ Design.cpu_tiers ->
            Design.compatible c n).
Proof.
  split.
  - intros t n [[_ [=]]|(_ & v & -> & [= ->] & Hvalid)]%transform_fargate_cpu_inv Hn Hmem.
    assert (Ht : _get_valid_fargate_cpu v ∈ Design.cpu_tiers)
      by apply get_valid_fargate_cpu_snaps.
    apply getitem_resources_tier in Ht as [l Hl].
    rewrite (validate_cpu_side _ _ _ Hl), Hn in Hvalid.
    apply memories_valid, str_in_elem in Hmem. rewrite Hmem in Hvalid.
    destruct (str_in (pretty n) l) eqn:Hin; [|done].
    apply table_compatible. exists l. split; [done|]. by apply str_in_elem.
  - intros n c [[_ [=]]|(_ & _ & Hvalid)]%transform_fargate_memory_inv Hc Ht.
    apply getitem_resources_tier in Ht as [l Hl].
    rewrite validate_memory_side, Hc, Hl in Hvalid.
    destruct (str_in (pretty n) l) eqn:Hin; [|done].
    apply table_compatible. exists l. split; [done|]. by apply str_in_elem.
Qed.

Lemma successful_transform_is_compatible_witness :
  Design.compatible 1024 2048 ∧ Design.compatible 512 3072.
Proof.
  split.
  - destruct (successful_transform_is_compatible
                (Samples.fargate_memory "2048") (PInt 600)) as [Hcpu _].
    apply (Hcpu 1024 2048).
    + vm_compute. reflexivity.
    + reflexivity.
    + exists 256. left. split; [reflexivity | set_solver].
  - destruct (successful_transform_is_compatible
                (Samples.fargate_cpu 512) (PInt 2050)) as [_ Hmem].
    apply (Hmem 3072 512).
    + vm_compute. reflexivity.
    + reflexivity.
    + set_solver.
Defined.

(** X6: asking for more never yields less: both normalisations are
    monotone in the request, wherever the memory normalisation returns. *)
Theorem normalisation_monotone v w :
  v <= w ->
  _get_valid_fargate_cpu v <= _get_valid_fargate_cpu w
  ∧ ∀ a b n m, _get_valid_fargate_memory v = Ok a ->
               _get_valid_fargate_memory w = Ok b ->
               str a = pretty n -> str b = pretty m ->
               n <= m.
Proof.
  intros Hle. split.
  - unfold _get_valid_fargate_cpu. repeat case_match; lia.
  - intros a b n m Ha Hb Hn Hm.
    destruct (Z_lt_ge_dec w float_limit) as [Hw|Hw];
      [|by rewrite get_valid_fargate_memory_overflow in Hb by lia].
    destruct (get_valid_fargate_memory_rounds v) as (n' & (H1 & H2 & H3) & _ & Hn');
      [lia|].
    destruct (get_valid_fargate_memory_rounds w) as (m' & (H1' & H2' & H3') & _ & Hm');
      [lia|].
    rewrite Ha in Hn'. rewrite Hb in Hm'.
    injection Hn' as Hn'. injection Hm' as Hm'.
    rewrite Hn in Hn'. rewrite Hm in Hm'.
    apply (inj pretty) in Hn' as <-. apply (inj pretty) in Hm' as <-.
    destruct (Z_le_gt_dec w 512); [rewrite H1, H1' by lia; done|].
    destruct (Z_lt_ge_dec w 1024).
    + rewrite H2' by lia. destruct (Z_le_gt_dec v 512); [rewrite H1 by lia; done|].
      rewrite H2 by lia. done.
    + destruct H3' as (k' & [j' ->] & ? & ->); [lia|].
      destruct (Z_le_gt_dec v 512); [rewrite H1 by lia; lia|].
      destruct (Z_lt_ge_dec v 1024); [rewrite H2 by lia; lia|].
      destruct H3 as (k & [j ->] & ? & ->); [lia|]. lia.
Qed.

Lemma normalisation_monotone_witness :
  _get_valid_fargate_cpu 300 <= _get_valid_fargate_cpu 1500
  ∧ 512 <= 2048.
Proof.
  destruct (normalisation_monotone 300 1500) as [Hcpu Hmemory]; [lia|].
  split; [exact Hcpu|].
  apply (Hmemory (PStr "512") (PInt 2048) 512 2048);
    vm_compute; reflexivity.
Defined.

End FargateGuarantees.

(** ** Cluster exports: the listener and the load balancer *)

Section ClusterExports.

Implicit Types (cf : Cloud) (deploy_ctx : DeployContext) (s p q needle : string).

Lemma export_unavailable_falsy cf deploy_ctx param :
  export_unavailable cf deploy_ctx param ->
  truthy (_get_cluster_stack_export_value cf deploy_ctx param) = false.
Proof.
  unfold _get_cluster_stack_export_value, getattr.
  intros [->|(cluster & -> & [[e ->]|[->| ->]])]; done.
Qed.

(** X7: a failed export lookup never propagates.  With no stack deployed,
    [calculate_rule_priority] answers ["31"], and [load_balancer_name]
    answers the empty string, whenever the export cannot be had. *)
Theorem unavailable_export_is_swallowed cf deploy_ctx stack_name :
  (does_stack_exist cf stack_name = false ->
   export_unavailable cf deploy_ctx "ListenerARN" ->
   calculate_rule_priority cf deploy_ctx stack_name = Ok (PStr "31"))
  ∧ (export_unavailable cf deploy_ctx "ElasticLoadBalancerARN" ->
     load_balancer_name cf deploy_ctx = Ok "").
Proof.
  split.
  - intros Hstack Hexport%export_unavailable_falsy.
    unfold calculate_rule_priority. by rewrite Hstack, Hexport.
  - intros Hexport%export_unavailable_falsy.
    unfold load_balancer_name. by rewrite Hexport.
Qed.

Lemma unavailable_export_is_swallowed_witness :
  calculate_rule_priority (Samples.exporting (Raise (Exception "no such export")))
    Samples.in_cluster "prod-foo-api" = Ok (PStr "31")
  ∧ load_balancer_name (Samples.exporting (Ok PNone)) Samples.in_cluster = Ok "".
Proof.
  split.
  - destruct (unavailable_export_is_swallowed
                (Samples.exporting (Raise (Exception "no such export")))
                Samples.in_cluster "prod-foo-api") as [H _].
    apply H; [reflexivity|].
    right. exists (PStr "prod-foo-cluster"). split; [reflexivity|].
    left. eexists. reflexivity.
  - destruct (unavailable_export_is_swallowed (Samples.exporting (Ok PNone))
                Samples.in_cluster "prod-foo-api") as [_ H].
    apply H. right. exists (PStr "prod-foo-cluster"). split; [reflexivity|].
    right. left. reflexivity.
Defined.

Lemma length_append s p : String.length (s +:+ p) = (String.length s + String.length p)%nat.
Proof. induction s as [|c s IH]; [done|]. rewrite append_cons. cbn. by rewrite IH. Qed.

Lemma prefix_append needle s :
  String.prefix needle s = true <-> ∃ q, s = needle +:+ q.
Proof.
  split.
  - revert s. induction needle as [|c needle IH]; intros s.
    + intros _. by exists s.
    + destruct s as [|d s]; [done|].
      change (String.prefix (String c needle) (String d s))
        with (if ascii_dec c d then String.prefix needle s else false).
      destruct (ascii_dec c d) as [->|]; [|done].
      intros [q ->]%IH. exists q. by rewrite append_cons.
  - intros [q ->]. apply prefix_correct, substring_prefix.
Qed.

Lemma find_sub_found needle p q :
  (∀ p' q', p +:+ needle +:+ q = p' +:+ needle +:+ q' ->
            (String.length p <= String.length p')%nat) ->
  find_sub needle (p +:+ needle +:+ q) = Z.of_nat (String.length p).
Proof.
  induction p as [|c p IH]; intros Hfirst.
  - rewrite append_nil_l.
    assert (Hprefix : String.prefix needle (needle +:+ q) = true)
      by (apply prefix_append; eauto).
    destruct (needle +:+ q) as [|d s] eqn:Hs; cbn [find_sub]; by rewrite Hprefix.
  - rewrite append_cons. cbn [find_sub].
    destruct (String.prefix needle (String c (p +:+ needle +:+ q))) eqn:Hprefix.
    + apply prefix_append in Hprefix as [q' Hq'].
      specialize (Hfirst "" q'). rewrite append_cons, append_nil_l in Hfirst.
      specialize (Hfirst Hq'). cbn in Hfirst. lia.
    + rewrite IH.
      * cbn [String.length]. destruct (Z.ltb_spec (Z.of_nat (String.length p)) 0); lia.
      * intros p' q' Heq. specialize (Hfirst (String c p') q').
        rewrite !append_cons, Heq in Hfirst. specialize (Hfirst eq_refl).
        cbn in Hfirst. lia.
Qed.

Lemma find_sub_least needle p q :
  find_sub needle (p +:+ needle +:+ q) <= Z.of_nat (String.length p).
Proof.
  induction p as [|c p IH].
  - rewrite append_nil_l.
    assert (Hprefix : String.prefix needle (needle +:+ q) = true)
      by (apply prefix_append; eauto).
    destruct (needle +:+ q) as [|d s] eqn:Hs; cbn [find_sub]; by rewrite Hprefix.
  - rewrite append_cons. cbn [find_sub String.length].
    destruct (String.prefix needle _); [lia|].
    destruct (Z.ltb_spec (find_sub needle (p +:+ needle +:+ q)) 0); lia.
Qed.

Lemma find_sub_absent needle s :
  (∀ p q, s ≠ p +:+ needle +:+ q) -> find_sub needle s = -1.
Proof.
  induction s as [|c s IH]; intros Habsent; cbn [find_sub].
  - destruct (String.prefix needle "") eqn:Hprefix; [|done].
    apply prefix_append in Hprefix as [q Hq]. by destruct (Habsent "" q).
  - destruct (String.prefix needle (String c s)) eqn:Hprefix.
    + apply prefix_append in Hprefix as [q Hq]. by destruct (Habsent "" q).
    + rewrite IH; [done|]. intros p q ->. by apply (Habsent (String c p) q).
Qed.

Lemma substring_all s : substring 0 (String.length s) s = s.
Proof. by rewrite <- (append_nil_r s) at 2; rewrite substring_prefix. Qed.

Lemma substring_after p s m : substring (String.length p) m (p +:+ s) = substring 0 m s.
Proof. induction p as [|c p IH]; [done|]. rewrite append_cons. cbn. apply IH. Qed.

Lemma slice_from_length p s : slice_from (p +:+ s) (Z.of_nat (String.length p)) = s.
Proof.
  unfold slice_from. destruct (Z.ltb_spec (Z.of_nat (String.length p)) 0); [lia|].
  rewrite Nat2Z.id, length_append, substring_after.
  replace (String.length p + String.length s - String.length p)%nat
    with (String.length s) by lia.
  apply substring_all.
Qed.

Lemma last_character c s : ∃ init d, String c s = init +:+ String d "".
Proof.
  revert c. induction s as [|c' s IH]; intros c.
  - by exists "", c.
  - destruct (IH c') as (init & d & ->). by exists (String c init), d.
Qed.

(** X8: what [load_balancer_name] makes of an exported ARN [arn].  From the
    first [app/] on, the ARN is returned as it is.  An ARN without [app/]
    is cut at index [-1], which leaves its last character. *)
Theorem load_balancer_name_cuts_arn cf deploy_ctx cluster arn :
  attrs deploy_ctx !! "cluster_stack_name" = Some cluster ->
  get_export_value cf cluster "ElasticLoadBalancerARN" = Ok (PStr arn) ->
  (∀ p q, arn = p +:+ "app/" +:+ q ->
     (∀ p' q', arn = p' +:+ "app/" +:+ q' -> (String.length p <= String.length p')%nat) ->
     load_balancer_name cf deploy_ctx = Ok ("app/" +:+ q))
  ∧ ((∀ p q, arn ≠ p +:+ "app/" +:+ q) ->
     ∀ init c, arn = init +:+ String c "" ->
     load_balancer_name cf deploy_ctx = Ok (String c "")).
Proof.
  intros Hcluster Hexport.
  unfold load_balancer_name, _get_cluster_stack_export_value, getattr.
  rewrite Hcluster, Hexport. split.
  - intros p q -> Hfirst. rewrite find_sub_found, slice_from_length by done.
    replace (truthy (PStr (p +:+ "app/" +:+ q))) with true by (by destruct p).
    done.
  - intros Habsent init c ->. rewrite find_sub_absent by done.
    replace (truthy (PStr (init +:+ String c ""))) with true by (by destruct init).
    f_equal. unfold slice_from.
    rewrite length_append. cbn [String.length Z.ltb Z.compare].
    replace (Z.to_nat (Z.max 0 (Z.of_nat (String.length init + 1) + -1)))
      with (String.length init) by lia.
    rewrite substring_after.
    by replace (String.length init + 1 - String.length init)%nat with 1%nat by lia.
Qed.

Lemma load_balancer_name_cuts_arn_witness :
  load_balancer_name (Samples.exporting (Ok (PStr "arn:aws:elb:listener/app/prod-Ecs/c5f9")))
    Samples.in_cluster
  = Ok "app/prod-Ecs/c5f9".
Proof.
  destruct (load_balancer_name_cuts_arn
              (Samples.exporting (Ok (PStr "arn:aws:elb:listener/app/prod-Ecs/c5f9")))
              Samples.in_cluster (PStr "prod-foo-cluster")
              "arn:aws:elb:listener/app/prod-Ecs/c5f9")
    as [H _]; [reflexivity | reflexivity |].
  apply (H "arn:aws:elb:listener/" "prod-Ecs/c5f9"); [reflexivity|].
  intros p' q' Heq. pose proof (find_sub_least "app/" p' q') as Hleast.
  rewrite <- Heq in Hleast.
  change (find_sub _ _) with 21 in Hleast.
  change (String.length "arn:aws:elb:listener/") with 21%nat. lia.
Defined.

End ClusterExports.

(** ** Constructing a context *)

Section Construction.

Implicit Types (config : gmap string PyVal) (environ : gmap string string).

(** X11: neither constructor returns a context.  Whatever the parsed
    defaults, the process environment and the arguments,
    [create_deploy_context] sets APPLICATION and ROLE and then fails in
    [_initialize_environment_variables], at [env_variables.iteritems()],
    with an [AttributeError]; [create_deploy_context_artifact] fails
    there too, unless reading the artifact directory has failed
    before.  (The defaults file is taken as parsed and the template
    manager as constructed: both are outside these modules.) *)
Theorem constructors_never_return config environ now environment :
  (∀ application role,
     create_deploy_context config environ now application role environment
     = Raise (AttributeError "iteritems"))
  ∧ (∀ disk artifact_directory ctx,
       create_deploy_context_artifact disk config environ now artifact_directory
         environment ≠ Ok ctx).
Proof.
  split.
  - intros application role.
    unfold create_deploy_context, _initialize_environment_variables, setitem.
    cbn [vars]. unfold APPLICATION, ROLE.
    by rewrite lookup_insert_ne, lookup_insert_eq by done.
  - intros disk artifact_directory ctx. unfold create_deploy_context_artifact.
    destruct (_initialize_artifact_directory _ _ _) as [mid|]; [|done].
    apply initialize_never_returns.
Qed.

End Construction.

(** ** Reading an artifact directory into a context *)

Section ArtifactContext.

Implicit Types (self ctx : DeployContext) (config : gmap string PyVal)
  (environ : gmap string string) (disk : Disk).

Lemma update_entries_lookup entries d entries' :
  update_entries entries d = Ok entries' ->
  ∀ k, (∀ j, d !! k = Some j -> ∃ v, scalar j = Some v ∧ entries' !! k = Some v)
       ∧ (d !! k = None -> entries' !! k = entries !! k).
Proof.
  unfold update_entries. case_bool_decide as Hall; [|done]. intros [= <-] k. split.
  - intros j Hj. destruct (Hall k j Hj) as [v Hv]. exists v. split; [done|].
    apply lookup_union_Some_l. by rewrite lookup_omap, Hj.
  - intros Hk. rewrite lookup_union_r; [done|]. by rewrite lookup_omap, Hk.
Qed.

(** What the schema makes of the members that become entries. *)
Lemma init_members artifact_directory environment service_json sd :
  __init__ artifact_directory environment service_json = Ok sd ->
  (∃ a, application sd = JStr a) ∧ (∃ r, role sd = JStr r)
  ∧ (docker_registry sd = JNull ∨ ∃ u, docker_registry sd = JStr u).
Proof.
  unfold __init__, member. destruct service_json as [[| | | | |doc]|]; try done.
  destruct (Schema.valid (JObj doc)) eqn:Hvalid; [|done]. cbn [negb].
  unfold Schema.valid in Hvalid. rewrite !andb_true_iff in Hvalid.
  destruct Hvalid as ((((((((Ha & Hr) & _) & Hregistry) & _) & _) & _) & _) & _).
  unfold Schema.property in Ha, Hr, Hregistry.
  destruct (doc !! _APPLICATION) as [[| | |a| |]|]; try done.
  destruct (doc !! _ROLE) as [[| | |r| |]|]; try done.
  destruct (doc !! _SERVICE_TYPE) as [t|]; [|done]. cbn [mbind result_bind].
  destruct (doc !! _DEPLOYMENT_PARAMETERS) as [[| | | | |params]|]; try done.
  cbn [mbind result_bind].
  assert (Hregistry' : default (JStr "") (doc !! _DOCKER_REGISTRY) = JNull
                       ∨ ∃ u, default (JStr "") (doc !! _DOCKER_REGISTRY) = JStr u).
  { destruct (doc !! _DOCKER_REGISTRY) as [[| | |u| |]|]; try done; cbn; eauto. }
  destruct (doc !! (environment +:+ "-deployment-parameters")) as [specific|];
    [destruct (update params specific); [|done]|];
    cbn [mbind result_bind]; intros [= <-]; cbn; eauto.
Qed.

(** X12: reading an artifact directory into a context that has an
    ENVIRONMENT.  When the definition file loads for that environment and
    its deployment parameters are strings, numbers or [null], the call
    returns; the context then carries the definition, so that
    [get_service_modifications] returns its modifications; every
    deployment parameter is an entry of the context, whatever the context
    held under its name, unless it is IMAGE and the directory has an
    image reference, which is then the entry IMAGE; and the entries that
    are neither parameters nor APPLICATION, ROLE, DOCKER_REGISTRY_URL or
    IMAGE are as before. *)
Theorem artifact_directory_precedence disk self artifact_directory environment sd :
  vars self !! "ENVIRONMENT" = Some environment ->
  __init__ (local_directory disk artifact_directory) (str environment)
    (service_json_in disk (local_directory disk artifact_directory)) = Ok sd ->
  (∀ k j, deployment_parameters sd !! k = Some j -> is_Some (scalar j)) ->
  ∃ ctx,
    _initialize_artifact_directory disk self artifact_directory = Ok ctx
    ∧ service_definition ctx = Some sd
    ∧ get_service_modifications ctx = Ok (service_modifications sd)
    ∧ (∀ k j, deployment_parameters sd !! k = Some j ->
         k ≠ "IMAGE" ∨ containerurl_in disk (local_directory disk artifact_directory) = None ->
         ∃ v, scalar j = Some v ∧ vars ctx !! k = Some v)
    ∧ (∀ image, containerurl_in disk (local_directory disk artifact_directory) = Some image ->
         vars ctx !! "IMAGE" = Some (PStr image))
    ∧ (∀ k, deployment_parameters sd !! k = None ->
         k ∉ ["APPLICATION"; "ROLE"; "DOCKER_REGISTRY_URL"; "IMAGE"] ->
         vars ctx !! k = vars self !! k).
Proof.
  intros He Hsd Hscalar.
  destruct (init_members _ _ _ _ Hsd) as ([a Ha] & [r Hr] & Hregistry).
  unfold _initialize_artifact_directory. fold (local_directory disk artifact_directory).
  unfold ENVIRONMENT. rewrite He, Hsd. cbn [mbind result_bind].
  rewrite Ha, Hr. cbn [as_value mbind result_bind].
  assert (Hreg : ∃ registry, as_value (docker_registry sd) = Ok registry)
    by (destruct Hregistry as [->|[u ->]]; by eexists).
  destruct Hreg as [registry ->]. cbn [mbind result_bind].
  destruct (update_entries _ _) as [entries|e] eqn:Hentries.
  2: { unfold update_entries in Hentries.
       by rewrite bool_decide_eq_true_2 in Hentries. }
  cbn [mbind result_bind]. eexists. split; [reflexivity|].
  cbn [service_definition vars]. split; [done|]. split; [done|].
  pose proof (update_entries_lookup _ _ _ Hentries) as Hlookup.
  split; [|split].
  - intros k j Hj Himage. destruct (Hlookup k) as [Hin _].
    destruct (Hin j Hj) as (v & Hv & Hk). exists v. split; [done|].
    destruct (containerurl_in _ _) as [image|]; [|done].
    destruct Himage as [Hne|]; [|done]. by rewrite lookup_insert_ne.
  - intros image ->. by rewrite lookup_insert_eq.
  - intros k Hk Hother. destruct (Hlookup k) as [_ Hout].
    apply not_elem_of_cons in Hother as [Happ Hother].
    apply not_elem_of_cons in Hother as [Hrole Hother].
    apply not_elem_of_cons in Hother as [Hdocker Hother].
    apply not_elem_of_cons in Hother as [Himage _].
    assert (Hentry : entries !! k = vars self !! k).
    { rewrite (Hout Hk). unfold DOCKER_REGISTRY, ROLE, APPLICATION.
      by rewrite !lookup_insert_ne. }
    destruct (containerurl_in _ _) as [image|]; [|done].
    by rewrite lookup_insert_ne.
Qed.

Lemma artifact_directory_precedence_witness :
  ∃ ctx,
    _initialize_artifact_directory Samples.disk
      (Samples.entries {[ "ENVIRONMENT" := PStr "prod"; "TASK_CPU" := PStr "4096" ]})
      "s3://bucket/foo.zip" = Ok ctx
    ∧ vars ctx !! "TASK_CPU" = Some (PInt 1024)
    ∧ vars ctx !! "IMAGE" = Some (PStr "registry/foo:1")
    ∧ get_service_modifications ctx = Ok (JArr [JStr "cache"]).
Proof.
  destruct (__init__ "/srv/foo" "prod" (Some (JObj Samples.service_json)))
    as [sd|e] eqn:Hsd; [|vm_compute in Hsd; discriminate Hsd].
  assert (Hparams : deployment_parameters sd
                    = {[ "TASK_CPU" := JNum 1024; "TASK_SOFT_MEMORY" := JStr "512";
                         "DESIRED_COUNT" := JNum 3 ]}).
  { vm_compute in Hsd. injection Hsd as <-. vm_compute. reflexivity. }
  assert (Hmods : service_modifications sd = JArr [JStr "cache"]).
  { vm_compute in Hsd. injection Hsd as <-. reflexivity. }
  destruct (artifact_directory_precedence Samples.disk
              (Samples.entries {[ "ENVIRONMENT" := PStr "prod"; "TASK_CPU" := PStr "4096" ]})
              "s3://bucket/foo.zip" (PStr "prod") sd)
    as (ctx & Hctx & _ & Hget & Hover & Himage & _).
  - reflexivity.
  - exact Hsd.
  - intros k j. rewrite Hparams. intros Hj.
    apply lookup_insert_Some in Hj as [[_ <-]|[_ Hj]]; [by eexists|].
    apply lookup_insert_Some in Hj as [[_ <-]|[_ Hj]]; [by eexists|].
    apply lookup_singleton_Some in Hj as [_ <-]. by eexists.
  - exists ctx. split; [exact Hctx|]. split; [|split].
    + destruct (Hover "TASK_CPU" (JNum 1024)) as (v & Hv & Hk).
      * rewrite Hparams. vm_compute. reflexivity.
      * left. discriminate.
      * injection Hv as <-. exact Hk.
    + apply Himage. reflexivity.
    + rewrite Hget, Hmods. reflexivity.
Defined.

(** X13: a modification's resource stack name is its stack name followed
    by [-resources], and the one fails when the other does, with the
    same error. *)
Theorem modification_resource_stack_name_appends self mod_name :
  generate_modification_resource_stack_name self mod_name
  = (fun name => name +:+ "-resources") <$> generate_modification_stack_name self mod_name.
Proof.
  unfold generate_modification_resource_stack_name, generate_modification_stack_name.
  case_bool_decide; [done|].
  erewrite !format_segments by (vm_compute; reflexivity). cbn [render].
  repeat match goal with
    | |- context [match ?m !! ?k with _ => _ end] => destruct (m !! k); [|done]
    end.
  cbn [fmap result_fmap]. f_equal.
  rewrite ?append_assoc, ?append_cons, ?append_nil_l, ?append_nil_r.
  repeat (rewrite ?append_assoc, ?append_cons, ?append_nil_l; f_equal).
Qed.



End ArtifactContext.

(** ** Expanding references: errors and escapes *)

Section Expansion.

Implicit Types (self : DeployContext) (default : PyVal) (path pre tail : string).

Lemma sub_only_type_error self default skip_escaped path : ∀ skip escaped e,
  sub self default skip_escaped skip escaped path = Raise e -> e = TypeError.
Proof.
  induction path as [|c rest IH]; intros [|k] escaped e; cbn [sub]; try done.
  - destruct (_ && _).
    + destruct (match_var rest) as [[[group1 group2] n]|].
      * destruct (replace_var self default group1 group2); cbn; [| by intros [= <-] |];
          destruct (sub _ _ _ n _ rest) eqn:Hrest; cbn; try done;
          intros [= <-]; by eapply IH.
      * destruct (sub _ _ _ O _ rest) eqn:Hrest; cbn; [done|].
        intros [= <-]. by eapply IH.
    + destruct (sub _ _ _ O _ rest) eqn:Hrest; cbn; [done|].
      intros [= <-]. by eapply IH.
  - apply IH.
Qed.

Lemma sub_of_text self default skip_escaped path :
  (∀ k n, vars self !! k ≠ Some (PInt n)) -> (∀ n, default ≠ PInt n) ->
  ∀ skip escaped, ∃ s, sub self default skip_escaped skip escaped path = Ok s.
Proof.
  intros Hvars Hdefault.
  induction path as [|c rest IH]; intros [|k] escaped; cbn [sub]; try by eexists.
  - destruct (_ && _).
    + destruct (match_var rest) as [[[group1 group2] n]|].
      * destruct (IH n false) as [s ->].
        unfold replace_var, get.
        destruct (vars self !! _) as [[|i|v]|] eqn:Hkey; cbn; try by eexists.
        { by destruct (Hvars _ _ Hkey). }
        destruct default as [|i|d]; cbn; try by eexists.
        by destruct (Hdefault i).
      * destruct (IH O false) as [s ->]. by eexists.
    + destruct (IH O (Ascii.eqb c "\")) as [s ->]. by eexists.
  - apply IH.
Qed.


(** X15: [_expandvars] can fail in one way only, with a [TypeError],
    when a number is to be spliced into the text.  On a context whose
    entries are strings or [None], with a default that is a string or
    [None], it returns, whatever the text. *)
Theorem expandvars_only_type_error self path default skip_escaped :
  (∀ e, _expandvars self path default skip_escaped = Raise e -> e = TypeError)
  ∧ ((∀ k n, vars self !! k ≠ Some (PInt n)) -> (∀ n, default ≠ PInt n) ->
     ∃ s, _expandvars self path default skip_escaped = Ok s).
Proof.
  split.
  - intros e. apply sub_only_type_error.
  - intros Hvars Hdefault. by apply sub_of_text.
Qed.

Lemma expandvars_only_type_error_witness :
  ∃ s, _expandvars Samples.named_bob "$NAME runs ${JOB} for $5" PNone false = Ok s.
Proof.
  destruct (expandvars_only_type_error Samples.named_bob "$NAME runs ${JOB} for $5"
              PNone false) as [_ H].
  apply H; [|done]. intros k n. unfold Samples.named_bob, Samples.entries. cbn [vars].
  destruct (decide (k = "NAME")) as [->|Hne].
  - by rewrite lookup_singleton_eq.
  - by rewrite lookup_singleton_ne.
Defined.



End Expansion.

(** ** Definition files: reading, and saving a new one *)

Section DefinitionFiles.

Implicit Types (doc : gmap string Json) (environ : gmap string string)
  (deploy_params items : list (string * gmap string Json)) (k : string).

Lemma valid_environment_stanzas doc :
  Schema.valid (JObj doc) = true ->
  Schema.property Schema.is_object doc _CI_DEPLOYMENT_PARAMETERS = true
  ∧ Schema.property Schema.is_object doc _PROD_DEPLOYMENT_PARAMETERS = true
  ∧ Schema.property Schema.is_object doc _DEV_DEPLOYMENT_PARAMETERS = true.
Proof.
  unfold Schema.valid. rewrite !andb_true_iff. tauto.
Qed.

(** X18: how reading a definition file ends.  Without the file it is an
    [Exception] that names the directory.  A file that fails the schema
    is a [ValidationError].  For the environments [ci], [prod] and [dev]
    a file that passes the schema is always read.  For any other
    environment the schema says nothing about its stanza, and a stanza
    that is a number, a boolean or [null] is a [TypeError]. *)
Theorem definition_file_outcome artifact_directory environment :
  __init__ artifact_directory environment None
  = Raise (Exception ("Service definition (service.json) does not exist in artifact directory - "
                        +:+ artifact_directory))
  ∧ (∀ j, Schema.valid j = false ->
       __init__ artifact_directory environment (Some j) = Raise ValidationError)
  ∧ (∀ j, Schema.valid j = true -> environment ∈ ["ci"; "prod"; "dev"] ->
       ∃ sd, __init__ artifact_directory environment (Some j) = Ok sd)
  ∧ (∀ doc stanza, Schema.valid (JObj doc) = true ->
       doc !! (environment +:+ "-deployment-parameters") = Some stanza ->
       stanza = JNull ∨ (∃ b, stanza = JBool b) ∨ (∃ n, stanza = JNum n) ->
       __init__ artifact_directory environment (Some (JObj doc)) = Raise TypeError).
Proof.
  split; [done|]. split; [by intros j Hj; unfold __init__; rewrite Hj|]. split.
  - intros [| | | | |doc] Hvalid Henv; try done.
    destruct (valid_members doc Hvalid) as [(a & r & t & Ha & Hr & Ht) [base Hbase]].
    destruct (valid_environment_stanzas doc Hvalid) as (Hci & Hprod & Hdev).
    unfold __init__, member. rewrite Hvalid, Ha, Hr, Ht, Hbase.
    cbn [negb mbind result_bind].
    assert (Hstanza : Schema.property Schema.is_object doc
                        (environment +:+ "-deployment-parameters") = true).
    { revert Henv. rewrite !elem_of_cons, elem_of_nil. by intros [->|[->|[->|[]]]]. }
    unfold Schema.property in Hstanza.
    destruct (doc !! (environment +:+ "-deployment-parameters")) as [[| | | | |o]|];
      try done; by eexists.
  - intros doc stanza Hvalid Hstanza Hkind.
    destruct (valid_members doc Hvalid) as [(a & r & t & Ha & Hr & Ht) [base Hbase]].
    unfold __init__, member. rewrite Hvalid, Ha, Hr, Ht, Hbase, Hstanza.
    cbn [negb mbind result_bind].
    by destruct Hkind as [->|[[b ->]|[n ->]]].
Qed.

Lemma definition_file_outcome_witness :
  __init__ "/srv/foo" "unit-test"
    (Some (JObj (<[ "unit-test-deployment-parameters" := JNum 3 ]> Samples.service_json)))
  = Raise TypeError.
Proof.
  destruct (definition_file_outcome "/srv/foo" "unit-test") as (_ & _ & _ & H).
  apply (H _ (JNum 3)); [vm_compute; reflexivity | vm_compute; reflexivity |].
  right. right. by eexists.
Defined.

Lemma params_keep environ items k : ∀ ret out,
  params_without_default_values environ items ret = Ok out ->
  ret !! k = Some (JStr (default "" (environ !! k))) ->
  out !! k = Some (JStr (default "" (environ !! k))).
Proof.
  induction items as [|[key_ definition] items IH]; intros ret out; cbn.
  - by intros [= <-].
  - destruct (_ && _); [|by apply IH].
    destruct (definition !! "key") as [[| | |dk| |]|]; try done.
    intros Hout Hret. apply (IH _ _ Hout).
    destruct (decide (dk = k)) as [->|Hne];
      [by rewrite lookup_insert_eq | by rewrite lookup_insert_ne].
Qed.

Lemma params_asked environ items k : ∀ ret out,
  params_without_default_values environ items ret = Ok out ->
  asks_for items k ->
  out !! k = Some (JStr (default "" (environ !! k))).
Proof.
  induction items as [|[key_ definition] items IH]; intros ret out Hout
    (key' & definition' & Hin & Hproperty & Hdefault & Hkey).
  - by apply elem_of_nil in Hin.
  - apply elem_of_cons in Hin as [[= <- <-]|Hin].
    + cbn in Hout. rewrite Hproperty, Hdefault, Hkey in Hout.
      rewrite bool_decide_eq_false_2 in Hout by (by intros [? ?]).
      cbn in Hout. apply (params_keep _ _ _ _ _ Hout). by rewrite lookup_insert_eq.
    + cbn in Hout. destruct (_ && _).
      * destruct (definition !! "key") as [[| | |dk| |]|]; try done.
        apply (IH _ _ Hout). by exists key', definition'.
      * apply (IH _ _ Hout). by exists key', definition'.
Qed.

Lemma params_not_asked environ items k : ∀ ret out,
  params_without_default_values environ items ret = Ok out ->
  ¬ asks_for items k ->
  out !! k = ret !! k.
Proof.
  induction items as [|[key_ definition] items IH]; intros ret out Hout Hnot.
  - cbn in Hout. by injection Hout as <-.
  - assert (Hnot' : ¬ asks_for items k).
    { intros (key' & definition' & Hin & H). apply Hnot.
      exists key', definition'. split; [by right | done]. }
    cbn in Hout. destruct (is_property definition) eqn:Hproperty; cbn in Hout;
      [|by apply IH].
    case_bool_decide as Hdefault; cbn in Hout; [by apply IH|].
    destruct (definition !! "key") as [[| | |dk| |]|] eqn:Hkey; try done.
    rewrite (IH _ _ Hout Hnot'). apply lookup_insert_ne. intros ->. apply Hnot.
    exists key_, definition. split; [by left|]. split; [done|]. split; [|done].
    destruct (definition !! "default_value") eqn:Hvalue; [|done].
    destruct Hdefault. by eexists.
Qed.

(** X19: the parameters that [_get_params_without_default_values]
    returns are exactly the keys of the definitions of type [property]
    that have no [default_value], each with the value the process
    environment gives that key, and the empty string when it gives
    none. *)
Theorem params_without_default_values_are_asked environ deploy_params out :
  _get_params_without_default_values environ deploy_params = Ok out ->
  ∀ k, (asks_for deploy_params k ->
        out !! k = Some (JStr (default "" (environ !! k))))
       ∧ (¬ asks_for deploy_params k -> out !! k = None).
Proof.
  unfold _get_params_without_default_values. intros Hout k. split.
  - by apply (params_asked _ _ _ ∅).
  - intros Hnot. by rewrite (params_not_asked _ _ _ _ _ Hout Hnot).
Qed.

Lemma params_without_default_values_are_asked_witness :
  ∃ out,
    _get_params_without_default_values {[ "TASK_CPU" := "512" ]} Samples.deploy_params
    = Ok out
    ∧ out !! "API_KEY" = Some (JStr "").
Proof.
  destruct (_get_params_without_default_values {[ "TASK_CPU" := "512" ]}
              Samples.deploy_params) as [out|e] eqn:Hout;
    [|vm_compute in Hout; discriminate Hout].
  exists out. split; [reflexivity|].
  destruct (params_without_default_values_are_asked _ _ _ Hout "API_KEY") as [H _].
  apply H. eexists "ApiKey", _. split; [left|]. split; [reflexivity|].
  split; reflexivity.
Defined.

Lemma stanza_name_is_long environment (key : string) :
  (String.length key < 22)%nat -> key ≠ environment +:+ "-deployment-parameters".
Proof.
  intros Hshort ->. rewrite length_append in Hshort. cbn in Hshort. lia.
Qed.

(** X20: what [save_to_file] writes can be read back.  The object it
    saves passes the schema, and [ServiceDefinition], for any environment,
    reads from it the application, role and service type that were
    saved, an empty registry URL, no service modifications, and as
    deployment parameters the parameters without default values. *)
Theorem saved_definition_loads environ now (app duty kind : string) deploy_params
    known_service_modifications destination saved artifact_directory environment :
  save_to_file environ now app duty deploy_params kind
    known_service_modifications destination = Ok saved ->
  Schema.valid (JObj (service_definition_object saved)) = true
  ∧ ∃ sd,
      __init__ artifact_directory environment
        (Some (JObj (service_definition_object saved))) = Ok sd
      ∧ application sd = JStr app
      ∧ role sd = JStr duty
      ∧ service_type sd = JStr kind
      ∧ docker_registry sd = JStr ""
      ∧ service_modifications sd = JArr []
      ∧ _get_params_without_default_values environ deploy_params
        = Ok (deployment_parameters sd).
Proof.
  unfold save_to_file.
  destruct (_get_params_without_default_values environ deploy_params) as [params|];
    [|by destruct destination as [[|]|]].
  intros Hsaved.
  assert (Hobject : service_definition_object saved
                    = {[ _APPLICATION := JStr app;
                         _ROLE := JStr duty;
                         _SERVICE_TYPE := JStr kind;
                         _DEPLOYMENT_PARAMETERS := JObj params;
                         _MODIFICATIONS := JArr [] ]}).
  { revert Hsaved. cbn [mbind result_bind].
    destruct destination as [[|]|]; (destruct (Nat.ltb _ _);
      [destruct (parameter_rows deploy_params)|]); cbn [mbind result_bind];
      try done; by intros [= <-]. }
  rewrite Hobject. clear Hsaved Hobject.
  assert (Hvalid : Schema.valid (JObj {[ _APPLICATION := JStr app;
                         _ROLE := JStr duty;
                         _SERVICE_TYPE := JStr kind;
                         _DEPLOYMENT_PARAMETERS := JObj params;
                         _MODIFICATIONS := JArr [] ]}) = true)
    by (vm_compute; reflexivity).
  split; [done|]. unfold __init__. rewrite Hvalid. cbn [negb].
  assert (Hstanza : ({[ _APPLICATION := JStr app;
                        _ROLE := JStr duty;
                        _SERVICE_TYPE := JStr kind;
                        _DEPLOYMENT_PARAMETERS := JObj params;
                        _MODIFICATIONS := JArr [] ]} : gmap string Json)
                    !! (environment +:+ "-deployment-parameters") = None).
  { rewrite !lookup_insert_ne, lookup_singleton_ne; [done|..];
      apply stanza_name_is_long; cbn; lia. }
  rewrite Hstanza. unfold member.
  unfold _APPLICATION, _ROLE, _SERVICE_TYPE, _DEPLOYMENT_PARAMETERS, _MODIFICATIONS,
    _DOCKER_REGISTRY.
  repeat (rewrite lookup_insert_eq || rewrite lookup_insert_ne by done
          || rewrite lookup_singleton_eq || rewrite lookup_singleton_ne by done).
  cbn [mbind result_bind]. eexists. split; [reflexivity|]. cbn.
  repeat (rewrite lookup_insert_eq || rewrite lookup_insert_ne by done
          || rewrite lookup_singleton_eq || rewrite lookup_singleton_ne by done).
  done.
Qed.

Lemma saved_definition_loads_witness :
  ∃ saved sd,
    save_to_file {[ "API_KEY" := "k-1" ]} "2026-11-04 10:30:00" "foo" "api"
      Samples.deploy_params "cluster" [] (Some "/srv/foo") = Ok saved
    ∧ __init__ "/srv/foo" "prod" (Some (JObj (service_definition_object saved))) = Ok sd
    ∧ application sd = JStr "foo"
    ∧ deployment_parameters sd !! "API_KEY" = Some (JStr "k-1").
Proof.
  destruct (save_to_file {[ "API_KEY" := "k-1" ]} "2026-11-04 10:30:00" "foo" "api"
              Samples.deploy_params "cluster" [] (Some "/srv/foo"))
    as [saved|e] eqn:Hsaved; [|vm_compute in Hsaved; discriminate Hsaved].
  destruct (saved_definition_loads _ _ _ _ _ _ _ _ _ "/srv/foo" "prod" Hsaved)
    as (_ & sd & Hsd & Ha & _ & _ & _ & _ & Hparams).
  exists saved, sd. split; [reflexivity|]. split; [exact Hsd|]. split; [exact Ha|].
  assert (Hkey : match _get_params_without_default_values {[ "API_KEY" := "k-1" ]}
                         Samples.deploy_params with
                 | Ok params => params !! "API_KEY"
                 | Raise _ => None
                 end = Some (JStr "k-1"))
    by (vm_compute; reflexivity).
  rewrite Hparams in Hkey. exact Hkey.
Defined.

End DefinitionFiles.

(** ** Plans that cannot be built *)

Section PlanFailures.

Context {Template Deploy : Type}.
Variable has_monitor_definition : Template -> bool.
Variable monitor_execution_plan : Template -> DeployContext -> list (Step Template Deploy).

Implicit Types (sd : ServiceDefinition) (template_manager : TemplateManager Template)
  (ctx : DeployContext) (names : list string).

Lemma modification_steps_unresolved sd template_manager ctx e a r names name :
  vars ctx !! "ENVIRONMENT" = Some (PStr e) ->
  vars ctx !! "APPLICATION" = Some (PStr a) ->
  vars ctx !! "ROLE" = Some (PStr r) ->
  vars ctx !! "mod_name" = None ->
  name ∈ names ->
  get_known_service_modification template_manager (service_type sd) (JStr name) = None ->
  modification_steps has_monitor_definition monitor_execution_plan
    sd template_manager ctx (JStr <$> names)
  = Raise (AttributeError "has_monitor_definition").
Proof.
  intros He Ha Hr Hmod Hin Hunknown.
  induction names as [|n names IH]; [by apply elem_of_nil in Hin|].
  cbn [fmap list_fmap modification_steps as_value mbind result_bind].
  rewrite (generate_modification_stack_name_appends ctx e a r n) by done.
  cbn [mbind result_bind].
  destruct (get_known_service_modification _ _ (JStr n)) as [t|] eqn:Hn; [|done].
  cbn [resolved mbind result_bind].
  apply elem_of_cons in Hin as [->|Hin]; [congruence|]. by rewrite IH.
Qed.

(** X21: a plan is all or nothing.  On a context without the
    [stack_name] attribute the call fails on that attribute.  With it, a
    service type that the template manager does not know fails the call,
    and so does any declared modification that it does not know, wherever
    it is in the list: no plan of the steps before it is returned. *)
Theorem unresolved_template_aborts_plan sd template_manager ctx :
  (attrs ctx !! "stack_name" = None ->
   generate_execution_plan has_monitor_definition monitor_execution_plan
     sd template_manager ctx = Raise (AttributeError "stack_name"))
  ∧ (is_Some (attrs ctx !! "stack_name") ->
     get_known_service template_manager (service_type sd) = None ->
     generate_execution_plan has_monitor_definition monitor_execution_plan
       sd template_manager ctx = Raise (AttributeError "has_monitor_definition"))
  ∧ (∀ e a r names name,
       is_Some (attrs ctx !! "stack_name") ->
       is_Some (attrs ctx !! "resource_stack_name") ->
       vars ctx !! "ENVIRONMENT" = Some (PStr e) ->
       vars ctx !! "APPLICATION" = Some (PStr a) ->
       vars ctx !! "ROLE" = Some (PStr r) ->
       vars ctx !! "mod_name" = None ->
       service_modifications sd = JArr (JStr <$> names) ->
       name ∈ names ->
       get_known_service_modification template_manager (service_type sd) (JStr name)
       = None ->
       generate_execution_plan has_monitor_definition monitor_execution_plan
         sd template_manager ctx = Raise (AttributeError "has_monitor_definition")).
Proof.
  unfold generate_execution_plan, getattr. split; [|split].
  - by intros ->.
  - intros [stack ->] ->. done.
  - intros e a r names name [stack ->] [resources ->] He Ha Hr Hmod -> Hin Hunknown.
    cbn [mbind result_bind].
    destruct (get_known_service _ _) as [main|]; [|done]. cbn [resolved mbind result_bind].
    destruct (get_resource_service _ _); cbn [mbind result_bind iterate];
      by rewrite (modification_steps_unresolved sd template_manager ctx e a r names name).
Qed.

End PlanFailures.

Lemma unresolved_template_aborts_plan_witness :
  generate_execution_plan (fun _ => false) Samples.monitor
    (Samples.definition "cluster" ["cache"; "queue"]) (Samples.known_but "queue")
    Samples.prod_foo_api_ctx
  = Raise (AttributeError "has_monitor_definition").
Proof.
  destruct (unresolved_template_aborts_plan (fun _ => false) Samples.monitor
              (Samples.definition "cluster" ["cache"; "queue"]) (Samples.known_but "queue")
              Samples.prod_foo_api_ctx) as (_ & _ & H).
  assert (Hstack : is_Some (attrs Samples.prod_foo_api_ctx !! "stack_name"))
    by (eexists; vm_compute; reflexivity).
  assert (Hresources : is_Some (attrs Samples.prod_foo_api_ctx !! "resource_stack_name"))
    by (eexists; vm_compute; reflexivity).
  assert (He : vars Samples.prod_foo_api_ctx !! "ENVIRONMENT" = Some (PStr "prod"))
    by (vm_compute; reflexivity).
  assert (Ha : vars Samples.prod_foo_api_ctx !! "APPLICATION" = Some (PStr "foo"))
    by (vm_compute; reflexivity).
  assert (Hr : vars Samples.prod_foo_api_ctx !! "ROLE" = Some (PStr "api"))
    by (vm_compute; reflexivity).
  assert (Hmod : vars Samples.prod_foo_api_ctx !! "mod_name" = None)
    by (vm_compute; reflexivity).
  apply (H "prod" "foo" "api" ["cache"; "queue"] "queue" Hstack Hresources He Ha Hr Hmod).
  - reflexivity.
  - apply elem_of_cons. right. apply elem_of_cons. left. reflexivity.
  - reflexivity.
Defined.
